(** * BuildHTMLFromJSONFiles: plugin descriptors to a static HTML page

    A shallow embedding of [scripts/BuildHTMLFromJSONFiles.py].

    Conventions of the model.
    - A value produced by [json.load] is a [json] term.  A Python [dict] is an
      association list in insertion order; [json.load] never yields a repeated
      key, and lookup takes the first binding.  Python's [None] and JSON's
      [null] are the same constructor [JNull], as they are in the program.
    - A Python [str] is a [string]; its characters are [ascii] characters.
    - An exception is a [Raise] outcome; everything a function does before
      raising stays in the trace of events.
    - [print], [open], [mkdir] and [write_text] are events of a trace, in the
      order the program performs them.  The text of a diagnostic is kept as a
      structured message (one constructor per format string of the source).
    - The file system is a POSIX one: names match and compare by character,
      case-sensitively.
    - Creating directories and writing the output file are taken to succeed,
      and of the exceptions that reading a file lets through the model has
      [UnicodeDecodeError] only: the properties below are about runs in which
      nothing else is raised. *)

From Stdlib Require Import List String Ascii ZArith Bool Arith Lia.
From Stdlib Require Import Permutation Sorted SpecFloat DecimalString DecimalNat.
Import ListNotations.

Open Scope string_scope.
Open Scope list_scope.
Open Scope Z_scope.

(** ** Values *)

#[warnings="-register-all"]
Inductive json : Type :=
| JNull
| JBool (b : bool)
| JInt (z : Z)
| JFloat (f : spec_float)
| JStr (s : string)
| JList (l : list json)
| JDict (d : list (string * json)).

Definition dict := list (string * json).

(** ** Outcomes: a returned value or a raised exception *)

Inductive exn : Type :=
| TypeError
| AttributeError
| KeyError
| IndexError
| UnicodeDecodeError.

Inductive result (A : Type) : Type :=
| Ret (a : A)
| Raise (e : exn).

Arguments Ret {A} a.
Arguments Raise {A} e.

Definition rbind {A B : Type} (r : result A) (k : A -> result B) : result B :=
  match r with
  | Ret a => k a
  | Raise e => Raise e
  end.

Declare Scope result_scope.
Delimit Scope result_scope with result.
Notation "x <- r ;; k" := (rbind r (fun x => k))
  (at level 61, r at next level, right associativity) : result_scope.

(** ** Python builtins on JSON values *)

(** [key in data] and [data[key]] / [data.get(key)] on a dict. *)
Fixpoint dict_get (d : dict) (key : string) : option json :=
  match d with
  | [] => None
  | (k, v) :: rest => if String.eqb key k then Some v else dict_get rest key
  end.

Definition dict_has (d : dict) (key : string) : bool :=
  match dict_get d key with
  | Some _ => true
  | None => false
  end.

(** [isinstance(v, str)] *)
Definition is_str (v : json) : bool :=
  match v with
  | JStr _ => true
  | _ => false
  end.

(** [v is None] *)
Definition is_none (v : json) : bool :=
  match v with
  | JNull => true
  | _ => false
  end.

(** The integer an instance of [int] stands for.  [bool] is a subclass of
    [int] in Python: [isinstance(True, int)] holds and [True == 1]. *)
Definition int_value (v : json) : option Z :=
  match v with
  | JInt z => Some z
  | JBool b => Some (if b then 1 else 0)
  | _ => None
  end.

(** Truth value of an object, as [if v:] and [v or w] test it. *)
Definition truthy (v : json) : bool :=
  match v with
  | JNull => false
  | JBool b => b
  | JInt z => negb (z =? 0)
  | JFloat (S754_zero _) => false
  | JFloat _ => true
  | JStr s => negb (String.eqb s EmptyString)
  | JList l => match l with [] => false | _ => true end
  | JDict d => match d with [] => false | _ => true end
  end.

(** Lists and dicts are unhashable: [set(val)] raises [TypeError] on them. *)
Definition hashable (v : json) : bool :=
  match v with
  | JList _ | JDict _ => false
  | _ => true
  end.

(** Objects that [<] can compare with one another.  [None] compares with
    nothing; numbers (bool, int, float) compare among themselves; strings
    compare among themselves. *)
Inductive sort_class : Type := CNone | CNumber | CString | CContainer.

Definition class_of (v : json) : sort_class :=
  match v with
  | JNull => CNone
  | JBool _ | JInt _ | JFloat _ => CNumber
  | JStr _ => CString
  | JList _ | JDict _ => CContainer
  end.

Definition sort_class_eqb (a b : sort_class) : bool :=
  match a, b with
  | CNone, CNone | CNumber, CNumber | CString, CString
  | CContainer, CContainer => true
  | _, _ => false
  end.

(** [sorted(set(l))] for hashable [l] returns unless two members of
    different classes meet in a comparison.  All [None]s of [l] are one member
    of the set, so a set of one class never fails. *)
Definition sortable (l : list json) : bool :=
  match l with
  | [] => true
  | x :: rest => forallb (fun y => sort_class_eqb (class_of x) (class_of y)) rest
  end.

(** [enumerate(l)] *)
Fixpoint enumerate_from {A : Type} (i : nat) (l : list A) : list (nat * A) :=
  match l with
  | [] => []
  | x :: rest => (i, x) :: enumerate_from (S i) rest
  end.

Definition enumerate {A : Type} (l : list A) : list (nat * A) := enumerate_from 0 l.

(** ** The schema constants *)

Definition REQUIRED_KEYS : list string :=
  ["SchemaVersion"; "Name"; "Description"; "Company"; "SiteURL";
   "Architectures"; "OperatingSystems"].

Definition VALID_ARCHITECTURES : list string := ["x64"; "aarch64"].

Definition VALID_OPERATING_SYSTEMS : list string := ["Windows"; "Linux"].

(** ** validate_plugin_json *)

(** One constructor per message that [validate_plugin_json] appends. *)
Inductive verror : Type :=
| RootNotObject
| MissingKey (key : string)
| SchemaVersionNotOne
| MustBeString (key : string)
| MustBeArray (key : string)
| ItemMustBeString (key : string) (i : nat)
| InvalidMembers (key : string)
| ImagesMustBeArray
| ImageMustBeObject (i : nat)
| ImagePathMustBeString (i : nat)
| ImageDescriptionMustBeString (i : nat).

(** [for key in REQUIRED_KEYS: if key not in data: ...] *)
Definition missing_key_errors (d : dict) : list verror :=
  flat_map (fun key => if dict_has d key then [] else [MissingKey key]) REQUIRED_KEYS.

(** [if not isinstance(v, int) or v != 1] *)
Definition schema_version_errors (d : dict) : list verror :=
  match dict_get d "SchemaVersion" with
  | None => []
  | Some v =>
      match int_value v with
      | Some n => if n =? 1 then [] else [SchemaVersionNotOne]
      | None => [SchemaVersionNotOne]
      end
  end.

(** [if key in data and data[key] is not None and not isinstance(data[key], str)] *)
Definition string_field_errors (d : dict) (keys : list string) : list verror :=
  flat_map
    (fun key =>
       match dict_get d key with
       | Some v => if is_none v || is_str v then [] else [MustBeString key]
       | None => []
       end)
    keys.

(** Membership of an object in a set of strings. *)
Definition in_string_set (valid : list string) (v : json) : bool :=
  match v with
  | JStr s => existsb (String.eqb s) valid
  | _ => false
  end.

(** The set each enumerated field is checked against ([if key == ... elif]). *)
Definition valid_values (key : string) : option (list string) :=
  if String.eqb key "Architectures" then Some VALID_ARCHITECTURES
  else if String.eqb key "OperatingSystems" then Some VALID_OPERATING_SYSTEMS
  else None.

(** The body of [for key in ("Architectures", "OperatingSystems")].
    [set(val)] raises on an unhashable item, and [sorted(invalid)], evaluated
    while the message is formatted, raises on members that do not compare. *)
Definition enum_field_errors (d : dict) (key : string) : result (list verror) :=
  match dict_get d key with
  | None => Ret []
  | Some (JList val) =>
      let item_errors :=
        flat_map
          (fun '(i, item) => if is_str item then [] else [ItemMustBeString key i])
          (enumerate val) in
      match valid_values key with
      | None => Ret item_errors
      | Some valid =>
          if forallb hashable val then
            let invalid := filter (fun item => negb (in_string_set valid item)) val in
            match invalid with
            | [] => Ret item_errors
            | _ :: _ =>
                if sortable invalid
                then Ret (item_errors ++ [InvalidMembers key])
                else Raise TypeError
            end
          else Raise TypeError
      end
  | Some _ => Ret [MustBeArray key]
  end.

(** [if "Path" in entry and entry["Path"] is not None and not isinstance(...)] *)
Definition image_field_error (entry : dict) (key : string) (e : verror) : list verror :=
  match dict_get entry key with
  | Some v => if is_none v || is_str v then [] else [e]
  | None => []
  end.

Definition image_entry_errors (i : nat) (entry : json) : list verror :=
  match entry with
  | JDict e =>
      image_field_error e "Path" (ImagePathMustBeString i)
      ++ image_field_error e "Description" (ImageDescriptionMustBeString i)
  | _ => [ImageMustBeObject i]
  end.

Definition images_errors (d : dict) : list verror :=
  match dict_get d "Images" with
  | None => []
  | Some (JList img) => flat_map (fun '(i, entry) => image_entry_errors i entry) (enumerate img)
  | Some _ => [ImagesMustBeArray]
  end.

Definition validate_plugin_json (data : json) : result (list verror) :=
  match data with
  | JDict d =>
      let errors := missing_key_errors d in
      let errors := errors ++ schema_version_errors d in
      let errors := errors ++ string_field_errors d ["Name"; "Description"; "Company"; "SiteURL"] in
      (arch <- enum_field_errors d "Architectures" ;;
       let errors := errors ++ arch in
       os <- enum_field_errors d "OperatingSystems" ;;
       let errors := errors ++ os in
       let errors := errors ++ images_errors d in
       let errors := errors ++ string_field_errors d ["MinNsightSystemsVersion"; "SetupNotes"] in
       Ret errors)%result
  | _ => Ret [RootNotObject]
  end.

(** ** Text *)

Definition amp_char : ascii := Eval cbv in ascii_of_nat 38.
Definition lt_char : ascii := Eval cbv in ascii_of_nat 60.
Definition gt_char : ascii := Eval cbv in ascii_of_nat 62.
Definition quot_char : ascii := Eval cbv in ascii_of_nat 34.
Definition newline_char : ascii := Eval cbv in ascii_of_nat 10.

Definition dq : string := String quot_char EmptyString.

Definition nl : string := String newline_char EmptyString.

(** An f-string: its literal pieces and interpolated values, in order. *)
Definition fstring (pieces : list string) : string := String.concat EmptyString pieces.

(** [s.replace(old, new)] for a pattern [old] of one character. *)
Fixpoint replace_char (old : ascii) (new : string) (s : string) : string :=
  match s with
  | EmptyString => EmptyString
  | String c rest =>
      if Ascii.eqb c old
      then new ++ replace_char old new rest
      else String c (replace_char old new rest)
  end.

(** Escape HTML special characters. *)
Definition escape (s : string) : string :=
  replace_char quot_char "&quot;"
    (replace_char gt_char "&gt;"
       (replace_char lt_char "&lt;"
          (replace_char amp_char "&amp;" s))).

(** [str(i)] of a natural number and of an integer. *)
Definition nat_to_string (n : nat) : string := NilZero.string_of_uint (Nat.to_uint n).

Definition Z_to_string (z : Z) : string := NilZero.string_of_int (Z.to_int z).

(** Truth value of a string: non-empty. *)
Definition nonempty (s : string) : bool := negb (String.eqb s EmptyString).

(** The characters of a string, as iterating over it yields them. *)
Fixpoint chars (s : string) : list string :=
  match s with
  | EmptyString => []
  | String c rest => String c EmptyString :: chars rest
  end.

(** ** Methods the renderer calls on plugin data *)

(** [p.get(key, default)]; only a dict has [get]. *)
Definition py_get (p : json) (key : string) (default : json) : result json :=
  match p with
  | JDict d =>
      Ret (match dict_get d key with
           | Some v => v
           | None => default
           end)
  | _ => Raise AttributeError
  end.

(** [escape(v)]: [v.replace] exists on a [str] only. *)
Definition escape_value (v : json) : result string :=
  match v with
  | JStr s => Ret (escape s)
  | _ => Raise AttributeError
  end.

Fixpoint strings_of (l : list json) : option (list string) :=
  match l with
  | [] => Some []
  | JStr s :: rest => option_map (cons s) (strings_of rest)
  | _ :: _ => None
  end.

(** [sep.join(v)]: [v] is iterated (a list by its items, a string by its
    characters, a dict by its keys) and every item must be a [str]. *)
Definition py_join (sep : string) (v : json) : result string :=
  match v with
  | JList l =>
      match strings_of l with
      | Some ss => Ret (String.concat sep ss)
      | None => Raise TypeError
      end
  | JStr s => Ret (String.concat sep (chars s))
  | JDict d => Ret (String.concat sep (map fst d))
  | _ => Raise TypeError
  end.

(** [v[0]] *)
Definition py_first (v : json) : result json :=
  match v with
  | JList (x :: _) => Ret x
  | JList [] => Raise IndexError
  | JStr (String c _) => Ret (JStr (String c EmptyString))
  | JStr EmptyString => Raise IndexError
  | JDict _ => Raise KeyError
  | _ => Raise TypeError
  end.

(** [a or b] *)
Definition py_or (a b : json) : json := if truthy a then a else b.

(** ** Files, paths and events *)

Definition path := string.

Definition joinpath (dir : path) (name : string) : path := (dir ++ "/" ++ name)%string.

(** What opening and parsing a file of the input directory does. *)
Inductive file : Type :=
| Unreadable            (* [open] or [read] raises [OSError] *)
| Undecodable           (* the bytes are not UTF-8: [UnicodeDecodeError] *)
| NotJSON               (* [json.load] raises [JSONDecodeError] *)
| Parsed (v : json).    (* [json.load] returns [v] *)

Inductive message : Type :=
| FailedToParse (p : path)
| FailedToLoad (p : path)
| InvalidFormat (p : path)
| ValidationError (e : verror)
| NotADirectory (p : path)
| OutputFileNotSpecified
| NoPluginsFound
| Wrote (p : path) (n : nat).

Inductive event : Type :=
| Stderr (m : message)
| Stdout (m : message)
| OpenFile (p : path)
| MkdirParents (p : path)
| WriteText (p : path) (content : string).

(** A computation: the events it performed, then its outcome. *)
Definition prog (A : Type) : Type := (list event * result A)%type.

Definition ret {A : Type} (a : A) : prog A := ([], Ret a).

Definition raise {A : Type} (e : exn) : prog A := ([], Raise e).

Definition emit (ev : event) : prog unit := ([ev], Ret tt).

Definition lift {A : Type} (r : result A) : prog A := ([], r).

Definition bind {A B : Type} (m : prog A) (k : A -> prog B) : prog B :=
  match m with
  | (t, Ret a) => let (t', r) := k a in (t ++ t', r)
  | (t, Raise e) => (t, Raise e)
  end.

Declare Scope prog_scope.
Delimit Scope prog_scope with prog.
Notation "x <- m ;; k" := (bind m (fun x => k))
  (at level 61, m at next level, right associativity) : prog_scope.
Notation "m ;; k" := (bind m (fun _ => k))
  (at level 61, right associativity) : prog_scope.

(** ** load_plugin_json *)

(** Load and parse a single plugin JSON file.  Returns None on failure. *)
Definition load_plugin_json (p : path) (f : file) : prog json :=
  (emit (OpenFile p) ;;
   match f with
   | Parsed v => ret v
   | Unreadable | NotJSON => emit (Stderr (FailedToParse p)) ;; ret JNull
   | Undecodable => raise UnicodeDecodeError
   end)%prog.

(** ** collect_plugins *)

(** A directory: its entries in the order the file system enumerates them. *)
Definition listing := list (string * file).

(** [fnmatch(name, "*.json")] *)
Definition matches_json (name : string) : bool :=
  let n := String.length name in
  (5 <=? n)%nat && String.eqb (substring (n - 5) 5 name) ".json".

(** [input_dir.glob("*.json")] *)
Definition glob_json (entries : listing) : listing :=
  filter (fun e => matches_json (fst e)) entries.

(** [sorted]: stable, by path; the paths of one directory order as their
    names do. *)
Fixpoint insert_entry (x : string * file) (l : listing) : listing :=
  match l with
  | [] => [x]
  | y :: rest =>
      if String.leb (fst x) (fst y) then x :: l else y :: insert_entry x rest
  end.

Definition sorted (l : listing) : listing := fold_right insert_entry [] l.

Fixpoint print_errors (errs : list verror) : prog unit :=
  match errs with
  | [] => ret tt
  | err :: rest => (emit (Stderr (ValidationError err)) ;; print_errors rest)%prog
  end.

(** The loop of [collect_plugins], [plugins] being the list built so far. *)
Fixpoint collect_loop (input_dir : path) (files : listing) (plugins : list json)
  : prog (list json) :=
  match files with
  | [] => ret plugins
  | (name, f) :: rest =>
      let p := joinpath input_dir name in
      (data <- load_plugin_json p f ;;
       if is_none data then
         emit (Stderr (FailedToLoad p)) ;;
         collect_loop input_dir rest plugins
       else
         validation_errors <- lift (validate_plugin_json data) ;;
         match validation_errors with
         | _ :: _ =>
             emit (Stderr (InvalidFormat p)) ;;
             print_errors validation_errors ;;
             collect_loop input_dir rest plugins
         | [] => collect_loop input_dir rest (plugins ++ [data])
         end)%prog
  end.

(** Collect all valid plugin objects from JSON files in input_dir. *)
Definition collect_plugins (input_dir : path) (entries : listing) : prog (list json) :=
  collect_loop input_dir (sorted (glob_json entries)) [].

(** ** build_html *)

Section Rendering.

(** [repr] of a float, a list or a dict, which [str] falls back to.  The
    renderer reaches it only on a [MinNsightSystemsVersion] that is none of
    a string, [None], a bool or an int. *)
Variable py_repr : json -> string.

(** [str(v)] *)
Definition py_str (v : json) : string :=
  match v with
  | JStr s => s
  | JNull => "None"
  | JBool true => "True"
  | JBool false => "False"
  | JInt z => Z_to_string z
  | _ => py_repr v
  end.

Definition title : string := "Nsight Systems Plugins".

(** The image of a plugin: the value of [img_html] after the lines from
    [images = p.get("Images") or []] to the end of the [if images:] block. *)
Definition plugin_image_html (p : json) (name : string) : result string :=
  (im <- py_get p "Images" JNull ;;
   let images := py_or im (JList []) in
   if truthy images then
     first <- py_first images ;;
     path <- py_get first "Path" (JStr EmptyString) ;;
     description <- py_get first "Description" (JStr name) ;;
     alt <- escape_value description ;;
     if truthy path then
       path_esc <- escape_value path ;;
       Ret (fstring [
         "<a href="; dq; path_esc; dq; "><img src="; dq; path_esc; dq; " alt="; dq; alt; dq;
           " class="; dq; "plugin-img"; dq; " /></a>"
       ])
     else Ret EmptyString
   else Ret EmptyString)%result.

Definition toc_row (anchor_id name : string) : string :=
  fstring [
    "        <li><a href="; dq; "#"; anchor_id; dq; ">"; name; "</a></li>"
  ].

(** The thumbnail line of a body row: the image in its [div], or nothing. *)
Definition thumb_html (img_html : string) : string :=
  if nonempty img_html
  then fstring [
    "<div class="; dq; "plugin-thumb"; dq; ">"; img_html; "</div>"
  ]
  else EmptyString.

Definition body_row (anchor_id name desc img_html archs oses min_ver setup_notes
                     site_link company : string) : string :=
  let thumb := thumb_html img_html in
  let archs_cell := if nonempty (escape archs) then escape archs else "-" in
  let oses_cell := if nonempty (escape oses) then escape oses else "-" in
  let min_ver_row :=
    if nonempty min_ver
    then fstring [
      "<dt>Minimal Nsight Systems version</dt><dd>"; min_ver; "</dd>"
    ]
    else EmptyString in
  let setup_notes_row :=
    if nonempty setup_notes
    then fstring [
      "<dt>Setup Notes</dt><dd>"; setup_notes; "</dd>"
    ]
    else EmptyString in
  let site_cell :=
    if nonempty site_link
    then fstring [
      "<p class="; dq; "plugin-link"; dq; ">"; site_link; "</p>"
    ]
    else EmptyString in
  fstring [
    nl;
    "        <article class="; dq; "plugin-card"; dq; " id="; dq; anchor_id; dq; ">"; nl;
    "            <div class="; dq; "plugin-header"; dq; ">"; nl;
    "                <h2>"; name; "</h2>"; nl;
    "            </div>"; nl;
    "            <p class="; dq; "plugin-desc"; dq; ">"; desc; "</p>"; nl;
    "            "; thumb; nl;
    "            <dl class="; dq; "plugin-meta"; dq; ">"; nl;
    "                <dt>Architectures</dt><dd>"; archs_cell; "</dd>"; nl;
    "                <dt>Operating systems</dt><dd>"; oses_cell; "</dd>"; nl;
    "                "; min_ver_row; nl;
    "                "; setup_notes_row; nl;
    "                <dt>Site URL</dt><dd>"; site_cell; "</dd>"; nl;
    "                <dt>Company</dt><dd>"; company; "</dd>"; nl;
    "            </dl>"; nl;
    "        </article>"
  ].

(** One iteration of [for i, p in enumerate(plugins)]: the row appended to
    [toc_rows] and the row appended to [body_rows]. *)
Definition render_plugin (i : nat) (p : json) : result (string * string) :=
  (c <- py_get p "Company" (JStr "Unnamed") ;;
   company <- escape_value c ;;
   n <- py_get p "Name" (JStr "Unnamed") ;;
   name <- escape_value n ;;
   let anchor_id := ("plugin-" ++ nat_to_string i)%string in
   let toc := toc_row anchor_id name in
   d <- py_get p "Description" (JStr EmptyString) ;;
   desc <- escape_value d ;;
   site_url <- py_get p "SiteURL" (JStr EmptyString) ;;
   site_esc <- escape_value site_url ;;
   a <- py_get p "Architectures" (JList []) ;;
   archs <- py_join ", " a ;;
   o <- py_get p "OperatingSystems" (JList []) ;;
   oses <- py_join ", " o ;;
   m <- py_get p "MinNsightSystemsVersion" (JStr EmptyString) ;;
   let min_ver := escape (py_str m) in
   s <- py_get p "SetupNotes" (JStr EmptyString) ;;
   setup_notes <- escape_value s ;;
   img_html <- plugin_image_html p name ;;
   let site_link :=
     if truthy site_url
     then fstring [
       "<a href="; dq; site_esc; dq; " rel="; dq; "noopener noreferrer"; dq; ">"; site_esc; "</a>"
     ]
     else EmptyString in
   Ret (toc,
        body_row anchor_id name desc img_html archs oses min_ver setup_notes
                 site_link company))%result.

(** The whole loop: [toc_rows] and [body_rows]. *)
Fixpoint render_rows (rows : list (nat * json)) : result (list string * list string) :=
  match rows with
  | [] => Ret ([], [])
  | (i, p) :: rest =>
      (r <- render_plugin i p ;;
       rs <- render_rows rest ;;
       Ret (fst r :: fst rs, snd r :: snd rs))%result
  end.

Definition page (toc body : string) : string :=
  fstring [
    "<!DOCTYPE html>"; nl;
    "<html lang="; dq; "en"; dq; ">"; nl;
    "<head>"; nl;
    "    <meta charset="; dq; "UTF-8"; dq; " />"; nl;
    "    <meta name="; dq; "viewport"; dq; " content="; dq;
      "width=device-width, initial-scale=1"; dq; " />"; nl;
    "    <title>"; title; "</title>"; nl;
    "    <link rel="; dq; "icon"; dq; " type="; dq; "image/x-icon"; dq; " href="; dq;
      "./Images/nvidia-favicon.ico"; dq; ">"; nl;
    "    <style>"; nl;
    "        :root { font-family: system-ui, sans-serif; line-height: 1.5; color: #1a1a1a; background: #f5f5f5; }";
      nl;
    "        body { max-width: 720px; margin: 0 auto; padding: 1.5rem; }"; nl;
    "        .page-header { display: flex; align-items: center; gap: 1rem; margin-bottom: 0.5rem; }";
      nl;
    "        .page-header img { height: 5rem; width: auto; display: block; margin-left: -1.5rem; }";
      nl;
    "        h1 { margin: 0; }"; nl;
    "        .toc { background: #fff; border-radius: 8px; padding: 1rem 1.25rem; margin-bottom: 1.5rem; box-shadow: 0 1px 3px rgba(0,0,0,0.08); }";
      nl;
    "        .toc ul { margin: 0; padding-left: 1.5rem; }"; nl;
    "        .toc li { margin: 0.35rem 0; }"; nl;
    "        .toc a { color: #0066cc; text-decoration: none; }"; nl;
    "        .toc a:hover { text-decoration: underline; }"; nl;
    "        .plugin-card { background: #fff; border-radius: 8px; padding: 1.25rem; margin-bottom: 1.5rem; box-shadow: 0 1px 3px rgba(0,0,0,0.08); }";
      nl;
    "        .plugin-header { display: flex; align-items: flex-start; gap: 1rem; flex-wrap: wrap; }";
      nl;
    "        .plugin-header h2 { margin: 0 0 0.5rem 0; font-size: 1.25rem; }"; nl;
    "        .plugin-thumb { flex-shrink: 0; }"; nl;
    "        .plugin-thumb a { text-decoration: none; display: inline-block; }"; nl;
    "        .plugin-img { max-width: 700px; max-height: 300px; object-fit: contain; border-radius: 4px; }";
      nl;
    "        .plugin-desc { margin: 0.5rem 0; color: #333; }"; nl;
    "        .plugin-meta { margin: 0.75rem 0; font-size: 0.9rem; }"; nl;
    "        .plugin-meta dt { font-weight: 600; margin-top: 0.25rem; }"; nl;
    "        .plugin-meta dd { margin: 0 0 0 1rem; }"; nl;
    "        .plugin-link { margin: 0.5rem 0 0 0; }"; nl;
    "        .plugin-link a { color: #0066cc; }"; nl;
    "    </style>"; nl;
    "</head>"; nl;
    "<body>"; nl;
    "    <header class="; dq; "page-header"; dq; ">"; nl;
    "        <img src="; dq; "./Images/nvidia-logo-horiz-rgb-blk-for-screen.svg"; dq; " alt=";
      dq; "NVIDIA"; dq; " />"; nl;
    "    </header>"; nl;
    "    <h1>"; title; "</h1>"; nl;
    "    <p>This site lists Nsight Systems third-party plugins.<p>"; nl;
    "    <ul>"; nl;
    "        <li>For information about Nsight Systems, visit the <a href="; dq;
      "https://developer.nvidia.com/nsight-systems"; dq; " target="; dq; "_blank"; dq; " rel=";
      dq; "noopener noreferrer"; dq; ">Nsight Systems website</a>.</li>"; nl;
    "        <li>To add a third-party plugin to this list, refer to the instructions provided in the <a href=";
      dq; "https://github.com/NVIDIA/NsightSystemsPlugins/blob/main/ADD_PLUGIN.md"; dq;
      " target="; dq; "_blank"; dq; " rel="; dq; "noopener noreferrer"; dq;
      ">ADD_PLUGIN.md file.</a> file.</li>"; nl;
    "    </ul>"; nl;
    "    <nav class="; dq; "toc"; dq; " aria-label="; dq; "Plugin list"; dq; ">"; nl;
    "    <p><b>Table of Contents</b></p>"; nl;
    "        <ul>"; nl;
    "            "; toc; nl;
    "        </ul>"; nl;
    "        <p><a href="; dq; "#legal-disclaimer"; dq; ">Legal Disclaimer</a></p>"; nl;
    "    </nav>"; nl;
    body; nl;
    "<article class="; dq; "plugin-card"; dq; " id="; dq; "legal-disclaimer"; dq; ">"; nl;
    "<p><b>Legal Disclaimer</b></p>"; nl;
    "    <p>The plugins made available on this site are third-party projects provided solely as a convenience and resource for developers. These plugins are not developed, reviewed, tested, modified, or endorsed by us.</p>";
      nl;
    "    <p>Third-party plugins may contain errors, security vulnerabilities, or functionality that is inaccurate, incomplete, or otherwise undesirable. By downloading or using any plugin, you acknowledge and agree that you do so at your own risk. We disclaim all responsibility and liability for any harm, damage, or loss arising from the use of these plugins.</p>";
      nl;
    "    <p>Use of any plugin is subject to the applicable third-party license terms, and you are solely responsible for complying with those terms.</p>";
      nl;
    "    <p>We do not provide support, updates, or security fixes for these plugins.</p>"; nl;
    "</article>"; nl;
    "</body>"; nl;
    "</html>"; nl
  ].

(** Generate an HTML page listing all plugins and write it to output_file_path. *)
Definition build_html (plugins : list json) (output_file_path : path) : prog unit :=
  (rows <- lift (render_rows (enumerate plugins)) ;;
   let toc := String.concat nl (fst rows) in
   let body := String.concat nl (snd rows) in
   let html := page toc body in
   emit (MkdirParents output_file_path) ;;
   emit (WriteText output_file_path html))%prog.

(** ** main *)

(** One run: the parsed command line, [Path.resolve], and the entries of the
    resolved input directory ([None] when it is not a directory). *)
Record invocation : Type := {
  arg_input_dir : option path;
  arg_output_file : option path;
  resolve : path -> path;
  input_entries : option listing
}.

Definition main (inv : invocation) : prog Z :=
  match arg_input_dir inv with
  | None => raise AttributeError
  | Some dir =>
      let input_dir := resolve inv dir in
      match input_entries inv with
      | None => (emit (Stderr (NotADirectory input_dir)) ;; ret 1)%prog
      | Some entries =>
          match arg_output_file inv with
          | None => (emit (Stdout OutputFileNotSpecified) ;; ret 1)%prog
          | Some out =>
              let output_file_path := resolve inv out in
              (plugins <- collect_plugins input_dir entries ;;
               match plugins with
               | [] => emit (Stderr NoPluginsFound) ;; ret 1
               | _ :: _ =>
                   build_html plugins output_file_path ;;
                   emit (Stdout (Wrote output_file_path (List.length plugins))) ;;
                   ret 0
               end)%prog
          end
      end
  end.

End Rendering.

(** * Vocabulary of the properties *)

(** ** escape *)

(** What [escape] makes of one character. *)
Definition escape_char (c : ascii) : string :=
  if Ascii.eqb c amp_char then "&amp;"
  else if Ascii.eqb c lt_char then "&lt;"
  else if Ascii.eqb c gt_char then "&gt;"
  else if Ascii.eqb c quot_char then "&quot;"
  else String c EmptyString.

Fixpoint escape_chars (s : string) : string :=
  match s with
  | EmptyString => EmptyString
  | String c rest => (escape_char c ++ escape_chars rest)%string
  end.

(** The names that follow [&] in the four substitutions. *)
Definition entity_names : list string := ["amp;"; "lt;"; "gt;"; "quot;"].

Definition markup_char (c : ascii) : bool :=
  Ascii.eqb c lt_char || Ascii.eqb c gt_char || Ascii.eqb c quot_char.

(** Every position of [t] holds no markup character, and an ampersand only
    in front of an entity name. *)
Fixpoint encoded (t : string) : Prop :=
  match t with
  | EmptyString => True
  | String c rest =>
      markup_char c = false
      /\ (c = amp_char -> exists ent, In ent entity_names /\ prefix ent rest = true)
      /\ encoded rest
  end.


(** ** The schema, in the words of the specification *)

Definition string_or_null (v : json) : Prop := v = JNull \/ exists s, v = JStr s.

(** A field that, when present, is a string or null. *)
Definition optional_string (d : dict) (key : string) : Prop :=
  forall v, dict_get d key = Some v -> string_or_null v.

(** A list of strings drawn from [valid]. *)
Definition strings_from (valid : list string) (v : json) : Prop :=
  exists l, v = JList l /\ Forall (fun item => exists s, item = JStr s /\ In s valid) l.

(** An object whose Path and Description, when present, are strings or null. *)
Definition image_entry (entry : json) : Prop :=
  exists e, entry = JDict e /\ optional_string e "Path" /\ optional_string e "Description".

Definition STRING_KEYS : list string :=
  ["Name"; "Description"; "Company"; "SiteURL"; "MinNsightSystemsVersion"; "SetupNotes"].

(** The schema, for a given reading [version_ok] of its SchemaVersion clause. *)
Definition schema_with (version_ok : json -> Prop) (data : json) : Prop :=
  exists d,
    data = JDict d
    /\ (forall key, In key REQUIRED_KEYS -> dict_has d key = true)
    /\ (exists v, dict_get d "SchemaVersion" = Some v /\ version_ok v)
    /\ (forall key, In key STRING_KEYS -> optional_string d key)
    /\ (exists a, dict_get d "Architectures" = Some a /\ strings_from VALID_ARCHITECTURES a)
    /\ (exists o, dict_get d "OperatingSystems" = Some o
                  /\ strings_from VALID_OPERATING_SYSTEMS o)
    /\ (forall img, dict_get d "Images" = Some img ->
                    exists l, img = JList l /\ Forall image_entry l).

(** The schema as the specification words it: SchemaVersion is the integer 1. *)
Definition satisfies_schema (data : json) : Prop :=
  schema_with (fun v => v = JInt 1) data.

(** The schema the validator decides: SchemaVersion is an instance of [int]
    that equals 1, which [True] is as well. *)
Definition accepted_by_validator (data : json) : Prop :=
  schema_with (fun v => int_value v = Some 1) data.

(** A descriptor whose SchemaVersion is the JSON literal true. *)
Definition plugin_with_true_version : json :=
  JDict [("SchemaVersion", JBool true); ("Name", JStr "Tracer");
         ("Description", JStr "Traces"); ("Company", JStr "ACME");
         ("SiteURL", JStr "https://acme.example"); ("Architectures", JList [JStr "x64"]);
         ("OperatingSystems", JList [JStr "Linux"])].

(** ** What each file of the input directory contributes *)

(** The plugin a file contributes: its data, when it parses as JSON and the
    validator returns an empty error list for it. *)
Definition valid_plugin (f : file) : option json :=
  match f with
  | Parsed v =>
      match validate_plugin_json v with
      | Ret [] => Some v
      | _ => None
      end
  | _ => None
  end.

Fixpoint valid_plugins (files : listing) : list json :=
  match files with
  | [] => []
  | (_, f) :: rest =>
      match valid_plugin f with
      | Some v => v :: valid_plugins rest
      | None => valid_plugins rest
      end
  end.

(** The exception a file makes [collect_plugins] raise, if any. *)
Definition file_raises (f : file) : option exn :=
  match f with
  | Undecodable => Some UnicodeDecodeError
  | Parsed v =>
      match validate_plugin_json v with
      | Raise e => Some e
      | Ret _ => None
      end
  | _ => None
  end.

(** The events of one iteration of the loop on a file that raises nothing. *)
Definition file_events (input_dir : path) (entry : string * file) : list event :=
  let p := joinpath input_dir (fst entry) in
  OpenFile p ::
  match snd entry with
  | Parsed JNull => [Stderr (FailedToLoad p)]
  | Parsed v =>
      match validate_plugin_json v with
      | Ret (e :: errs) =>
          Stderr (InvalidFormat p) :: map (fun x => Stderr (ValidationError x)) (e :: errs)
      | _ => []
      end
  | Unreadable | NotJSON => [Stderr (FailedToParse p); Stderr (FailedToLoad p)]
  | Undecodable => []
  end.

(** A file that fails to parse or fails validation. *)
Definition rejected (f : file) : Prop :=
  match f with
  | Parsed v => validate_plugin_json v <> Ret []
  | _ => True
  end.

Definition is_write (ev : event) : bool :=
  match ev with
  | WriteText _ _ => true
  | _ => false
  end.

(** ** Runs that differ in the input directory only *)

(** The invocation [inv] run on a directory whose entries are [entries]. *)
Definition with_entries (inv : invocation) (entries : listing) : invocation :=
  {| arg_input_dir := arg_input_dir inv;
     arg_output_file := arg_output_file inv;
     resolve := resolve inv;
     input_entries := Some entries |}.

(** Path order on the entries of one directory. *)
Definition path_le (a b : string * file) : Prop := String.leb (fst a) (fst b) = true.

(** ** Sample data *)

(** A descriptor that satisfies the schema. *)
Definition sample_fields : dict :=
  [("SchemaVersion", JInt 1); ("Name", JStr "Tracer");
   ("Description", JStr "Traces <everything> & more"); ("Company", JStr "ACME");
   ("SiteURL", JStr "https://acme.example"); ("Architectures", JList [JStr "x64"]);
   ("OperatingSystems", JList [JStr "Linux"; JStr "Windows"]);
   ("Images", JList [JDict [("Path", JStr "tracer.png")]; JDict []])].

Definition sample_plugin : json := JDict sample_fields.

(** A descriptor whose Architectures holds an array instead of a string. *)
Definition plugin_with_nested_architecture : json :=
  JDict [("SchemaVersion", JInt 1); ("Name", JStr "Nested");
         ("Description", JStr "Nests"); ("Company", JStr "ACME");
         ("SiteURL", JStr "https://acme.example"); ("Architectures", JList [JList []]);
         ("OperatingSystems", JList [JStr "Linux"])].

(** A descriptor that satisfies the schema and whose Name is null. *)
Definition null_name_fields : dict :=
  [("SchemaVersion", JInt 1); ("Name", JNull);
   ("Description", JStr "Anonymous"); ("Company", JStr "ACME");
   ("SiteURL", JStr "https://acme.example"); ("Architectures", JList [JStr "aarch64"]);
   ("OperatingSystems", JList [JStr "Linux"])].

Definition plugin_with_null_name : json := JDict null_name_fields.

(** [repr] is never reached on validated data; any function will do there. *)
Definition unused_repr : json -> string := fun _ => EmptyString.

Definition sample_directory : listing :=
  [("tracer.json", Parsed sample_plugin); ("broken.json", NotJSON);
   ("README.md", Undecodable); ("empty.json", Parsed JNull)].

Definition sample_invocation : invocation :=
  {| arg_input_dir := Some "plugins";
     arg_output_file := Some "site/index.html";
     resolve := fun p => ("/work/" ++ p)%string;
     input_entries := Some sample_directory |}.

(** A run on the sample directory without --output-file. *)
Definition invocation_without_output : invocation :=
  {| arg_input_dir := Some "plugins";
     arg_output_file := None;
     resolve := fun p => ("/work/" ++ p)%string;
     input_entries := Some sample_directory |}.

(** ** The exit status, as the specification words it *)

(** The run found no input: the directory is missing, or no valid plugin file
    is in it. *)
Definition no_input (inv : invocation) : Prop :=
  input_entries inv = None
  \/ exists dir entries,
       arg_input_dir inv = Some dir
       /\ input_entries inv = Some entries
       /\ snd (collect_plugins (resolve inv dir) entries) = Ret [].

(** A nonzero status only when the run found no input, and status 0 on every
    other invocation. *)
Definition fails_only_without_input (py_repr : json -> string) (inv : invocation) : Prop :=
  (forall c, snd (main py_repr inv) = Ret c -> c <> 0 -> no_input inv)
  /\ (~ no_input inv -> snd (main py_repr inv) = Ret 0).

(** The tail of [main], from the test [if not plugins] on. *)
Definition render_collected (py_repr : json -> string) (output_file_path : path)
           (plugins : list json) : prog Z :=
  match plugins with
  | [] => (emit (Stderr NoPluginsFound) ;; ret 1)%prog
  | _ :: _ =>
      (build_html py_repr plugins output_file_path ;;
       emit (Stdout (Wrote output_file_path (List.length plugins))) ;;
       ret 0)%prog
  end.

(** The fields the renderer passes to [escape] unconverted. *)
Definition ESCAPED_KEYS : list string :=
  ["Name"; "Description"; "Company"; "SiteURL"; "SetupNotes"].

(** The plugin [d] with the list of its Images entry replaced. *)
Definition with_images (before after : dict) (images : list json) : json :=
  JDict (before ++ ("Images", JList images) :: after).

(** A directory whose first descriptor, in path order, is the one with the
    nested Architectures item, followed by a valid descriptor. *)
Definition directory_with_nested_architecture : listing :=
  [("tracer.json", Parsed sample_plugin);
   ("nested.json", Parsed plugin_with_nested_architecture)].

(** A descriptor with two images, the first of which has no Path. *)
Definition plugin_without_image_path : dict :=
  [("Name", JStr "Tracer");
   ("Images", JList [JDict [("Description", JStr "logo")]; JDict [("Path", JStr "b.png")]])].

(** ** Kinds of validation errors *)

Definition is_missing_key (e : verror) : bool :=
  match e with
  | MissingKey _ => true
  | _ => false
  end.

(** The two fields checked against a set of allowed strings. *)
Definition ENUM_KEYS : list string := ["Architectures"; "OperatingSystems"].

(** ** Characters that [escape] rewrites *)

Definition special_char (c : ascii) : bool := Ascii.eqb c amp_char || markup_char c.

Fixpoint string_forallb (p : ascii -> bool) (s : string) : bool :=
  match s with
  | EmptyString => true
  | String c rest => p c && string_forallb p rest
  end.

(** No character of [s] is one of the four that [escape] rewrites. *)
Definition plain (s : string) : bool := string_forallb (fun c => negb (special_char c)) s.

(** ** What rendering needs beyond validation *)

(** None of the fields passed to [escape] is null, and the first image, if
    any, has no null Description. *)
Definition renderable (d : dict) : Prop :=
  (forall key, In key ESCAPED_KEYS -> dict_get d key <> Some JNull)
  /\ (forall e rest,
         dict_get d "Images" = Some (JList (JDict e :: rest)) ->
         dict_get e "Description" <> Some JNull).

(** A descriptor that satisfies the schema and whose first image has a null
    Description. *)
Definition null_alt_fields : dict :=
  [("SchemaVersion", JInt 1); ("Name", JStr "Shot");
   ("Description", JStr "Screenshots"); ("Company", JStr "ACME");
   ("SiteURL", JStr "https://acme.example"); ("Architectures", JList [JStr "x64"]);
   ("OperatingSystems", JList [JStr "Windows"]);
   ("Images", JList [JDict [("Path", JStr "shot.png"); ("Description", JNull)]])].

Definition is_fs_change (ev : event) : bool :=
  match ev with
  | WriteText _ _ | MkdirParents _ => true
  | _ => false
  end.

(** ** Files opened, anchors *)

(** The paths a trace opens, in order. *)
Definition opened (t : list event) : list path :=
  flat_map (fun ev => match ev with OpenFile p => [p] | _ => [] end) t.

(** The paths of the entries of a directory. *)
Definition paths_of (dir : path) (files : listing) : list path :=
  map (fun entry => joinpath dir (fst entry)) files.

(** The anchor of the plugin at index [i]: [f"plugin-{i}"]. *)
Definition anchor_of (i : nat) : string := ("plugin-" ++ nat_to_string i)%string.


(** A directory of two descriptors that both validate, the first of which, in
    path order, has a null Name. *)
Definition directory_with_null_name : listing :=
  [("tracer.json", Parsed sample_plugin); ("anonymous.json", Parsed plugin_with_null_name)].

Definition invocation_with_null_name : invocation :=
  {| arg_input_dir := Some "plugins";
     arg_output_file := Some "site/index.html";
     resolve := fun p => ("/work/" ++ p)%string;
     input_entries := Some directory_with_null_name |}.

(** A directory all of whose descriptors are valid, enumerated out of order. *)
Definition valid_directory : listing :=
  [("tracer.json", Parsed sample_plugin); ("notes.txt", NotJSON);
   ("alpha.json", Parsed plugin_with_true_version)].

(** A validated descriptor whose MinNsightSystemsVersion is null. *)
Definition null_version_fields : dict :=
  [("SchemaVersion", JInt 1); ("Name", JStr "Probe");
   ("Description", JStr "Probes"); ("Company", JStr "ACME");
   ("SiteURL", JStr "https://acme.example"); ("Architectures", JList [JStr "x64"]);
   ("OperatingSystems", JList [JStr "Linux"]); ("MinNsightSystemsVersion", JNull)].

(** A descriptor that lacks Company and SiteURL. *)
Definition incomplete_fields : dict :=
  [("SchemaVersion", JInt 1); ("Name", JStr "Partial");
   ("Description", JStr "Half a descriptor"); ("Architectures", JList [JStr "x64"]);
   ("OperatingSystems", JList [JStr "Linux"])].

(** ** A directory without its rejected files *)

Definition is_valid_file (f : file) : bool :=
  match valid_plugin f with
  | Some _ => true
  | None => false
  end.

(** The entries of a directory whose files parse and validate. *)
Definition without_rejected (entries : listing) : listing :=
  filter (fun entry => is_valid_file (snd entry)) entries.

(** ** Text inside text *)

(** [needle] occurs in [hay]. *)
Definition contains (needle hay : string) : Prop :=
  exists pre post, hay = (pre ++ needle ++ post)%string.
(** * Properties *)

(** ** escape *)

Lemma string_app_assoc (a b c : string) :
  (a ++ b ++ c)%string = ((a ++ b) ++ c)%string.
Proof. induction a as [|x a IH]; simpl; [reflexivity|now rewrite IH]. Qed.

Lemma string_app_nil_r (a : string) : (a ++ EmptyString)%string = a.
Proof. induction a as [|x a IH]; simpl; [reflexivity|now rewrite IH]. Qed.

Lemma replace_char_app (old : ascii) (new a b : string) :
  replace_char old new (a ++ b) = (replace_char old new a ++ replace_char old new b)%string.
Proof.
  induction a as [|c a IH]; simpl; [reflexivity|].
  destruct (Ascii.eqb c old); simpl; rewrite IH; [|reflexivity].
  apply string_app_assoc.
Qed.

Ltac split_char c :=
  unfold escape_char;
  destruct (Ascii.eqb_spec c amp_char) as [->|?];
  [|destruct (Ascii.eqb_spec c lt_char) as [->|?];
    [|destruct (Ascii.eqb_spec c gt_char) as [->|?];
      [|destruct (Ascii.eqb_spec c quot_char) as [->|?]]]].

Lemma escape_one (c : ascii) : escape (String c EmptyString) = escape_char c.
Proof.
  unfold escape. split_char c; try reflexivity.
  simpl.
  repeat match goal with
         | H : c <> ?k |- context [Ascii.eqb c ?k] =>
             destruct (Ascii.eqb_spec c k); [contradiction|simpl]
         end.
  reflexivity.
Qed.

Lemma escape_app (a b : string) : escape (a ++ b) = (escape a ++ escape b)%string.
Proof. unfold escape. now rewrite !replace_char_app. Qed.

Lemma escape_is_escape_chars (s : string) : escape s = escape_chars s.
Proof.
  induction s as [|c s IH]; [reflexivity|].
  change (String c s) with (String c EmptyString ++ s)%string.
  rewrite escape_app, escape_one, IH. reflexivity.
Qed.

Lemma encoded_escape_char (c : ascii) (t : string) :
  encoded t -> encoded (escape_char c ++ t).
Proof.
  intros Ht. split_char c; simpl.
  - repeat split; try discriminate; auto.
    intros _. exists "amp;". split; [simpl; auto|]. simpl.
    repeat (destruct (ascii_dec _ _); [|congruence]). now destruct t.
  - repeat split; try discriminate; auto.
    intros _. exists "lt;". split; [simpl; auto|]. simpl.
    repeat (destruct (ascii_dec _ _); [|congruence]). now destruct t.
  - repeat split; try discriminate; auto.
    intros _. exists "gt;". split; [simpl; auto|]. simpl.
    repeat (destruct (ascii_dec _ _); [|congruence]). now destruct t.
  - repeat split; try discriminate; auto.
    intros _. exists "quot;". split; [simpl; auto|]. simpl.
    repeat (destruct (ascii_dec _ _); [|congruence]). now destruct t.
  - repeat split; auto; [|contradiction].
    unfold markup_char.
    repeat match goal with
           | H : c <> ?k |- context [Ascii.eqb c ?k] =>
               destruct (Ascii.eqb_spec c k); [contradiction|simpl]
           end.
    reflexivity.
Qed.

Lemma encoded_escape (s : string) : encoded (escape s).
Proof.
  rewrite escape_is_escape_chars.
  induction s as [|c s IH]; simpl; [exact I|].
  now apply encoded_escape_char.
Qed.

Lemma encoded_at (t pre post : string) (c : ascii) :
  encoded t -> t = (pre ++ String c post)%string ->
  markup_char c = false
  /\ (c = amp_char -> exists ent, In ent entity_names /\ prefix ent post = true).
Proof.
  revert t. induction pre as [|p pre IH]; intros t Ht ->; simpl in Ht.
  - tauto.
  - destruct Ht as (_ & _ & Ht). now apply (IH _ Ht).
Qed.

(** C8. For every string [s], [escape s] holds none of the characters
    less-than, greater-than and double quote, every ampersand of [escape s] is
    directly followed by one of the names amp; lt; gt; quot; and [escape s] is
    [s] with each of the four characters replaced by its entity and every other
    character kept. *)
Theorem escape_fully_entity_encoded (s : string) :
  (forall pre c post,
      escape s = (pre ++ String c post)%string ->
      c <> lt_char /\ c <> gt_char /\ c <> quot_char)
  /\ (forall pre post,
         escape s = (pre ++ String amp_char post)%string ->
         exists ent, In ent entity_names /\ prefix ent post = true)
  /\ escape s = escape_chars s.
Proof.
  split; [|split].
  - intros pre c post E.
    destruct (encoded_at _ _ _ _ (encoded_escape s) E) as [M _].
    unfold markup_char in M.
    apply orb_false_elim in M as [M Mq]. apply orb_false_elim in M as [Ml Mg].
    repeat split; intros ->; discriminate.
  - intros pre post E.
    destruct (encoded_at _ _ _ _ (encoded_escape s) E) as [_ A]. now apply A.
  - apply escape_is_escape_chars.
Qed.

(** ** validate_plugin_json *)

Lemma flat_map_nil {A B : Type} (f : A -> list B) (l : list A) :
  flat_map f l = [] <-> Forall (fun x => f x = []) l.
Proof.
  induction l as [|x l IH]; simpl.
  - split; auto.
  - split.
    + intros E. apply app_eq_nil in E as [E1 E2]. constructor; [assumption|now apply IH].
    + intros F. inversion F; subst. rewrite (proj2 IH) by assumption.
      now rewrite H1.
Qed.

Lemma is_none_or_str (v : json) : is_none v || is_str v = true <-> string_or_null v.
Proof.
  unfold string_or_null. destruct v; simpl; split; intros H; try discriminate; auto.
  all: try (destruct H as [H|[s H]]; discriminate).
  right. now exists s.
Qed.

Lemma missing_key_errors_nil (d : dict) :
  missing_key_errors d = [] <-> forall key, In key REQUIRED_KEYS -> dict_has d key = true.
Proof.
  unfold missing_key_errors. rewrite flat_map_nil, Forall_forall.
  split; intros H key Hk; specialize (H key Hk).
  - destruct (dict_has d key); [reflexivity|discriminate].
  - now rewrite H.
Qed.

Lemma schema_version_errors_nil (d : dict) :
  schema_version_errors d = [] <->
  forall v, dict_get d "SchemaVersion" = Some v -> int_value v = Some 1.
Proof.
  unfold schema_version_errors.
  destruct (dict_get d "SchemaVersion") as [v|].
  2:{ split; [discriminate|reflexivity]. }
  destruct (int_value v) as [n|] eqn:En.
  - destruct (Z.eqb_spec n 1) as [->|N]; split.
    + intros _ v' [= <-]. assumption.
    + reflexivity.
    + discriminate.
    + intros H. specialize (H v eq_refl). congruence.
  - split; [discriminate|]. intros H. specialize (H v eq_refl). congruence.
Qed.

Lemma string_field_errors_nil (d : dict) (keys : list string) :
  string_field_errors d keys = [] <-> forall key, In key keys -> optional_string d key.
Proof.
  unfold string_field_errors, optional_string. rewrite flat_map_nil, Forall_forall.
  split; intros H key Hk.
  - intros v E. specialize (H key Hk). rewrite E in H.
    apply is_none_or_str. destruct (is_none v || is_str v); [reflexivity|discriminate].
  - specialize (H key Hk). destruct (dict_get d key) as [v|]; [|reflexivity].
    now rewrite (proj2 (is_none_or_str v) (H v eq_refl)).
Qed.

Lemma in_string_set_spec (valid : list string) (v : json) :
  in_string_set valid v = true <-> exists s, v = JStr s /\ In s valid.
Proof.
  destruct v; simpl; try (split; [discriminate|intros (s0 & E & _); discriminate]).
  rewrite existsb_exists. split.
  - intros (x & Hx & E). apply String.eqb_eq in E. subst. eauto.
  - intros (s0 & E & Hs). injection E as <-. exists s. split; [assumption|apply String.eqb_refl].
Qed.

Lemma item_errors_nil (key : string) (val : list json) (i : nat) :
  Forall (fun item => is_str item = true) val ->
  flat_map (fun '(i, item) => if is_str item then [] else [ItemMustBeString key i])
           (enumerate_from i val) = [].
Proof.
  intros F. revert i. induction F as [|x l Hx F IH]; intros i; simpl; [reflexivity|].
  now rewrite Hx, IH.
Qed.

Lemma filter_nil {A : Type} (f : A -> bool) (l : list A) :
  filter f l = [] <-> Forall (fun x => f x = false) l.
Proof.
  induction l as [|x l IH]; simpl.
  - split; auto.
  - destruct (f x) eqn:E.
    + split; [discriminate|]. intros F. inversion F; congruence.
    + rewrite IH. split; [now constructor|]. intros F. now inversion F.
Qed.

Lemma ret_app_not_nil {A : Type} (l : list A) (x : A) : Ret (l ++ [x]) <> Ret [].
Proof. intros E. injection E as E. now destruct l. Qed.

Lemma enum_field_errors_nil (d : dict) (key : string) (valid : list string) :
  valid_values key = Some valid ->
  enum_field_errors d key = Ret [] <->
  forall v, dict_get d key = Some v -> strings_from valid v.
Proof.
  intros V. unfold enum_field_errors, strings_from. rewrite V.
  destruct (dict_get d key) as [v|].
  2:{ split; [discriminate|reflexivity]. }
  destruct v; try (split; [discriminate|intros H; destruct (H _ eq_refl) as (l0 & E & _); discriminate]).
  split.
  - intros H v E. injection E as <-. exists l. split; [reflexivity|].
    destruct (forallb hashable l); [|discriminate].
    destruct (filter _ l) eqn:Ef.
    + apply filter_nil in Ef. rewrite Forall_forall in *. intros x Hx.
      specialize (Ef x Hx). apply negb_false_iff in Ef. now apply in_string_set_spec.
    + destruct (sortable (j :: l0)); [|discriminate]. now apply ret_app_not_nil in H.
  - intros H. destruct (H _ eq_refl) as (l0 & E & F). injection E as <-.
    assert (Fs : Forall (fun item => is_str item = true) l).
    { rewrite Forall_forall in *. intros x Hx. destruct (F x Hx) as (s & -> & _). reflexivity. }
    assert (Fh : forallb hashable l = true).
    { apply forallb_forall. rewrite Forall_forall in F. intros x Hx.
      destruct (F x Hx) as (s & -> & _). reflexivity. }
    assert (Fi : filter (fun item => negb (in_string_set valid item)) l = []).
    { apply filter_nil. rewrite Forall_forall in *. intros x Hx.
      apply negb_false_iff, in_string_set_spec, F, Hx. }
    rewrite Fh, Fi. unfold enumerate. now rewrite item_errors_nil.
Qed.

Lemma image_field_error_nil (e : dict) (key : string) (err : verror) :
  image_field_error e key err = [] <-> optional_string e key.
Proof.
  unfold image_field_error, optional_string.
  destruct (dict_get e key) as [v|].
  - split.
    + intros H v' E. injection E as <-. apply is_none_or_str.
      destruct (is_none v || is_str v); [reflexivity|discriminate].
    + intros H. now rewrite (proj2 (is_none_or_str v) (H v eq_refl)).
  - split; [discriminate|reflexivity].
Qed.

Lemma image_entry_errors_nil (i : nat) (entry : json) :
  image_entry_errors i entry = [] <-> image_entry entry.
Proof.
  unfold image_entry_errors, image_entry.
  destruct entry; try (split; [discriminate|intros (e & E & _); discriminate]).
  split.
  - intros H. apply app_eq_nil in H as [H1 H2].
    apply image_field_error_nil in H1. apply image_field_error_nil in H2. eauto.
  - intros (e & E & H1 & H2). injection E as <-.
    now rewrite (proj2 (image_field_error_nil _ _ _) H1), (proj2 (image_field_error_nil _ _ _) H2).
Qed.

Lemma image_list_errors_nil (img : list json) (i : nat) :
  flat_map (fun '(i, entry) => image_entry_errors i entry) (enumerate_from i img) = []
  <-> Forall image_entry img.
Proof.
  revert i. induction img as [|x img IH]; intros i; simpl.
  - split; auto.
  - split.
    + intros H. apply app_eq_nil in H as [H1 H2]. constructor.
      * now apply (image_entry_errors_nil i).
      * now apply (IH (S i)).
    + intros F. inversion F; subst.
      now rewrite (proj2 (image_entry_errors_nil i x)), (proj2 (IH (S i))).
Qed.

Lemma images_errors_nil (d : dict) :
  images_errors d = [] <->
  forall img, dict_get d "Images" = Some img -> exists l, img = JList l /\ Forall image_entry l.
Proof.
  unfold images_errors. destruct (dict_get d "Images") as [v|].
  2:{ split; [discriminate|reflexivity]. }
  destruct v; try (split; [discriminate|intros H; destruct (H _ eq_refl) as (l0 & E & _); discriminate]).
  unfold enumerate. rewrite image_list_errors_nil. split.
  - intros F img E. injection E as <-. eauto.
  - intros H. destruct (H _ eq_refl) as (l0 & E & F). now injection E as <-.
Qed.

Lemma rbind_ret {A B : Type} (r : result A) (k : A -> result B) (b : B) :
  rbind r k = Ret b <-> exists a, r = Ret a /\ k a = Ret b.
Proof.
  destruct r; simpl; split.
  - eauto.
  - now intros (a' & [= ->] & H).
  - discriminate.
  - intros (a' & E & _). discriminate.
Qed.

Lemma ret_inj {A : Type} (a b : A) : Ret a = Ret b -> a = b.
Proof. now intros [= ->]. Qed.

Lemma required_has (d : dict) (key : string) :
  dict_has d key = true -> exists v, dict_get d key = Some v.
Proof. unfold dict_has. destruct (dict_get d key); [eauto|discriminate]. Qed.

(** The validator returns no error exactly on the data of the schema it
    decides, where SchemaVersion is any [int] instance equal to 1. *)
Lemma validate_plugin_json_accepts (data : json) :
  validate_plugin_json data = Ret [] <-> accepted_by_validator data.
Proof.
  unfold accepted_by_validator, schema_with.
  destruct data; try (split; [discriminate|intros (d0 & E & _); discriminate]).
  unfold validate_plugin_json. rewrite rbind_ret. split.
  - intros (arch & Ea & H). apply rbind_ret in H as (os & Eo & H).
    apply ret_inj in H.
    apply app_eq_nil in H as [H S2]. apply app_eq_nil in H as [H Hi].
    apply app_eq_nil in H as [H Ho]. apply app_eq_nil in H as [H Ha].
    apply app_eq_nil in H as [H S1]. apply app_eq_nil in H as [Hm Hv].
    subst arch os.
    pose proof (proj1 (missing_key_errors_nil d) Hm) as Hreq.
    pose proof (proj1 (string_field_errors_nil _ _) S1) as S1'.
    pose proof (proj1 (string_field_errors_nil _ _) S2) as S2'.
    exists d. split; [reflexivity|]. split; [assumption|].
    split; [|split; [|split; [|split]]].
    + destruct (required_has d "SchemaVersion") as (v & Ev); [apply Hreq; simpl; auto|].
      exists v. split; [assumption|].
      now apply (proj1 (schema_version_errors_nil d)).
    + intros key Hk.
      simpl in Hk. decompose [or] Hk; subst; try contradiction;
        (apply S1'; simpl; tauto) || (apply S2'; simpl; tauto).
    + destruct (required_has d "Architectures") as (v & Ev); [apply Hreq; simpl; tauto|].
      exists v. split; [assumption|].
      now apply (proj1 (enum_field_errors_nil d "Architectures" _ eq_refl) Ea).
    + destruct (required_has d "OperatingSystems") as (v & Ev); [apply Hreq; simpl; tauto|].
      exists v. split; [assumption|].
      now apply (proj1 (enum_field_errors_nil d "OperatingSystems" _ eq_refl) Eo).
    + now apply images_errors_nil.
  - intros (d0 & E & Hreq & (v & Ev & Hv) & Hstr & (a & Ea & Ha) & (o & Eo & Ho) & Himg).
    injection E as <-.
    exists []. split.
    { apply (enum_field_errors_nil d "Architectures" _ eq_refl). intros v' E'. congruence. }
    apply rbind_ret. exists []. split.
    { apply (enum_field_errors_nil d "OperatingSystems" _ eq_refl). intros v' E'. congruence. }
    rewrite (proj2 (missing_key_errors_nil d) Hreq).
    rewrite (proj2 (schema_version_errors_nil d)) by (intros v' E'; congruence).
    rewrite (proj2 (images_errors_nil d) Himg).
    rewrite !(proj2 (string_field_errors_nil d _)); [reflexivity| |];
      intros key Hk; apply Hstr; simpl in *; tauto.
Qed.

(** C3. On the descriptor whose SchemaVersion is the JSON literal true, the
    validator returns an empty error list although the descriptor does not
    satisfy the schema, whose SchemaVersion must be the integer 1. *)
Theorem validate_accepts_true_as_schema_version :
  validate_plugin_json plugin_with_true_version = Ret []
  /\ ~ satisfies_schema plugin_with_true_version.
Proof.
  split; [reflexivity|].
  intros (d & E & _ & (v & Ev & Hv) & _).
  injection E as <-. simpl in Ev. injection Ev as <-. discriminate.
Qed.

(** The validator agrees with the schema as worded on every datum whose
    SchemaVersion is not a boolean. *)
Lemma validate_plugin_json_schema (data : json) :
  (forall d b, data = JDict d -> dict_get d "SchemaVersion" <> Some (JBool b)) ->
  validate_plugin_json data = Ret [] <-> satisfies_schema data.
Proof.
  intros NB. rewrite validate_plugin_json_accepts.
  unfold accepted_by_validator, satisfies_schema, schema_with.
  split; intros (d & E & Hreq & (v & Ev & Hv) & Rest); exists d;
    (split; [assumption|]); (split; [assumption|]); (split; [|assumption]);
    exists v; (split; [assumption|]).
  - destruct v; simpl in Hv; try discriminate.
    + exfalso. apply (NB d b E). assumption.
    + congruence.
  - now subst v.
Qed.

(** ** collect_plugins *)

Lemma bind_ret_inv {A B : Type} (m : prog A) (k : A -> prog B) (t : list event) (b : B) :
  bind m k = (t, Ret b) ->
  exists t1 a t2, m = (t1, Ret a) /\ k a = (t2, Ret b) /\ t = t1 ++ t2.
Proof.
  destruct m as [t1 [a|e]]; simpl; [|discriminate].
  destruct (k a) as [t2 r] eqn:Ek. intros [= <- ->]. now exists t1, a, t2.
Qed.

Lemma bind_emit {B : Type} (ev : event) (k : unit -> prog B) :
  bind (emit ev) k = (ev :: fst (k tt), snd (k tt)).
Proof. unfold bind, emit. now destruct (k tt). Qed.

Lemma bind_pair {A B : Type} (t : list event) (a : A) (k : A -> prog B) :
  bind (t, Ret a) k = (t ++ fst (k a), snd (k a)).
Proof. unfold bind. now destruct (k a). Qed.

Lemma print_errors_events (errs : list verror) :
  print_errors errs = (map (fun x => Stderr (ValidationError x)) errs, Ret tt).
Proof.
  induction errs as [|e errs IH]; [reflexivity|].
  cbn [print_errors]. now rewrite bind_emit, IH.
Qed.

Lemma validate_none (v : json) : is_none v = true -> validate_plugin_json v = Ret [RootNotObject].
Proof. destruct v; simpl; try discriminate. reflexivity. Qed.

(** One iteration on a file that raises nothing: its events, then the rest
    of the loop on the list extended by the plugin the file contributes. *)
Lemma collect_loop_step (dir : path) (name : string) (f : file) (rest : listing)
      (acc : list json) :
  file_raises f = None ->
  collect_loop dir ((name, f) :: rest) acc =
  let next :=
    collect_loop dir rest
      (match valid_plugin f with Some v => acc ++ [v] | None => acc end) in
  (file_events dir (name, f) ++ fst next, snd next).
Proof.
  intros NR. unfold file_events, valid_plugin. cbn [fst snd collect_loop].
  destruct f as [| | |v]; try discriminate.
  - cbn. now destruct (collect_loop dir rest acc).
  - cbn. now destruct (collect_loop dir rest acc).
  - cbn [file_raises] in NR.
    remember (validate_plugin_json v) as r eqn:Er.
    destruct (is_none v) eqn:En.
    + rewrite (validate_none v En) in Er. subst r. destruct v; try discriminate.
      cbn. now destruct (collect_loop dir rest acc).
    + unfold load_plugin_json, lift. rewrite bind_emit. cbn [fst snd ret].
      rewrite bind_pair. cbn [fst snd app]. rewrite En, <- Er.
      destruct r as [[|e errs]|e]; try discriminate.
      * rewrite bind_pair. destruct v; try discriminate; reflexivity.
      * rewrite bind_pair, bind_emit, print_errors_events, bind_pair.
        destruct v; try discriminate; reflexivity.
Qed.

(** One iteration on a file that raises: the file is opened and the
    exception leaves the loop. *)
Lemma collect_loop_raise (dir : path) (name : string) (f : file) (rest : listing)
      (acc : list json) (e : exn) :
  file_raises f = Some e ->
  collect_loop dir ((name, f) :: rest) acc = ([OpenFile (joinpath dir name)], Raise e).
Proof.
  intros R. cbn [collect_loop].
  destruct f as [| | |v]; try discriminate.
  - injection R as <-. reflexivity.
  - cbn [file_raises] in R.
    destruct (is_none v) eqn:En.
    + rewrite (validate_none v En) in R. discriminate.
    + unfold load_plugin_json, lift. rewrite bind_emit. cbn [fst snd ret].
      rewrite bind_pair. cbn [fst snd app]. rewrite En.
      destruct (validate_plugin_json v) as [errs|e'] eqn:Ev; [discriminate|].
      injection R as <-. reflexivity.
Qed.

Lemma valid_plugins_app (l1 l2 : listing) :
  valid_plugins (l1 ++ l2) = valid_plugins l1 ++ valid_plugins l2.
Proof.
  induction l1 as [|[n f] l1 IH]; simpl; [reflexivity|].
  destruct (valid_plugin f); simpl; now rewrite IH.
Qed.

(** The loop over files none of which raises: every file's events in order,
    and the plugins of the valid files, in order, after those collected so far. *)
Lemma collect_loop_total (dir : path) (files : listing) (acc : list json) :
  Forall (fun entry => file_raises (snd entry) = None) files ->
  collect_loop dir files acc =
  (flat_map (file_events dir) files, Ret (acc ++ valid_plugins files)).
Proof.
  intros F. revert acc. induction F as [|[name f] files NR F IH]; intros acc.
  - simpl. now rewrite app_nil_r.
  - rewrite (collect_loop_step dir name f files acc NR). cbn zeta.
    rewrite IH. cbn [fst snd flat_map valid_plugins].
    destruct (valid_plugin f); [now rewrite <- app_assoc|reflexivity].
Qed.

(** The loop over files the first raising of which is [f]: the events of the
    files before it, the opening of [f], and the exception. *)
Lemma collect_loop_aborts (dir : path) (pre post : listing) (name : string) (f : file)
      (e : exn) (acc : list json) :
  Forall (fun entry => file_raises (snd entry) = None) pre ->
  file_raises f = Some e ->
  collect_loop dir (pre ++ (name, f) :: post) acc =
  (flat_map (file_events dir) pre ++ [OpenFile (joinpath dir name)], Raise e).
Proof.
  intros F R. revert acc. induction F as [|[n g] pre NR F IH]; intros acc.
  - now apply collect_loop_raise.
  - cbn [app]. rewrite (collect_loop_step dir n g _ acc NR). cbn zeta.
    rewrite IH. cbn [fst snd flat_map]. now rewrite <- app_assoc.
Qed.

(** Every list of files either holds no raising file or splits at its first. *)
Lemma first_raising_file (files : listing) :
  Forall (fun entry => file_raises (snd entry) = None) files
  \/ exists pre name f post e,
       files = pre ++ (name, f) :: post
       /\ Forall (fun entry => file_raises (snd entry) = None) pre
       /\ file_raises f = Some e.
Proof.
  induction files as [|[name f] files IH]; [left; constructor|].
  destruct (file_raises f) as [e|] eqn:R.
  - right. exists [], name, f, files, e. repeat split; auto.
  - destruct IH as [F|(pre & n & g & post & e & -> & F & Rg)].
    + left. now constructor.
    + right. exists ((name, f) :: pre), n, g, post, e. repeat split; auto.
Qed.

(** When the loop returns, no file raised, and it returns as above. *)
Lemma collect_loop_returns (dir : path) (files : listing) (acc ps : list json)
      (t : list event) :
  collect_loop dir files acc = (t, Ret ps) ->
  Forall (fun entry => file_raises (snd entry) = None) files
  /\ t = flat_map (file_events dir) files
  /\ ps = acc ++ valid_plugins files.
Proof.
  intros E. destruct (first_raising_file files) as [F|(pre & n & g & post & e & -> & F & R)].
  - rewrite (collect_loop_total dir files acc F) in E. injection E as <- <-. auto.
  - rewrite (collect_loop_aborts dir pre post n g e acc F R) in E. discriminate.
Qed.

(** ** sorted *)

Lemma string_compare_lt_trans (s1 s2 s3 : string) :
  String.compare s1 s2 = Lt -> String.compare s2 s3 = Lt -> String.compare s1 s3 = Lt.
Proof.
  revert s2 s3. induction s1 as [|a s1 IH]; intros [|b s2] [|c s3]; simpl; try easy.
  unfold Ascii.compare.
  destruct (N.compare_spec (N_of_ascii a) (N_of_ascii b)) as [Eab|Lab|Gab]; try discriminate;
    destruct (N.compare_spec (N_of_ascii b) (N_of_ascii c)) as [Ebc|Lbc|Gbc]; try discriminate;
    intros H1 H2.
  - rewrite Eab, Ebc, N.compare_refl. eauto.
  - rewrite Eab. now rewrite (proj2 (N.compare_lt_iff _ _) Lbc).
  - rewrite <- Ebc. now rewrite (proj2 (N.compare_lt_iff _ _) Lab).
  - now rewrite (proj2 (N.compare_lt_iff _ _) (N.lt_trans _ _ _ Lab Lbc)).
Qed.

Lemma string_leb_trans (s1 s2 s3 : string) :
  String.leb s1 s2 = true -> String.leb s2 s3 = true -> String.leb s1 s3 = true.
Proof.
  unfold String.leb.
  destruct (String.compare s1 s2) eqn:E12; try discriminate;
    destruct (String.compare s2 s3) eqn:E23; try discriminate; intros _ _.
  - apply String.compare_eq_iff in E12. subst. now rewrite E23.
  - apply String.compare_eq_iff in E12. subst. now rewrite E23.
  - apply String.compare_eq_iff in E23. subst. now rewrite E12.
  - now rewrite (string_compare_lt_trans _ _ _ E12 E23).
Qed.

Lemma string_leb_false (s1 s2 : string) :
  String.leb s1 s2 = false -> String.leb s2 s1 = true.
Proof. destruct (String.leb_total s1 s2) as [H|H]; [congruence|auto]. Qed.

(** Insertions of two entries of different names commute. *)
Lemma insert_entry_comm (x y : string * file) (l : listing) :
  fst x <> fst y ->
  insert_entry x (insert_entry y l) = insert_entry y (insert_entry x l).
Proof.
  intros N. induction l as [|z l IH]; cbn [insert_entry].
  - destruct (String.leb (fst x) (fst y)) eqn:Exy, (String.leb (fst y) (fst x)) eqn:Eyx;
      try reflexivity.
    + destruct N. now apply String.leb_antisym.
    + apply string_leb_false in Exy. congruence.
  - destruct (String.leb (fst y) (fst z)) eqn:Eyz, (String.leb (fst x) (fst z)) eqn:Exz;
      cbn [insert_entry]; rewrite ?Eyz, ?Exz.
    + destruct (String.leb (fst x) (fst y)) eqn:Exy, (String.leb (fst y) (fst x)) eqn:Eyx;
        try reflexivity.
      * destruct N. now apply String.leb_antisym.
      * apply string_leb_false in Exy. congruence.
    + destruct (String.leb (fst x) (fst y)) eqn:Exy; [|reflexivity].
      rewrite (string_leb_trans _ _ _ Exy Eyz) in Exz. discriminate.
    + destruct (String.leb (fst y) (fst x)) eqn:Eyx; [|reflexivity].
      rewrite (string_leb_trans _ _ _ Eyx Exz) in Eyz. discriminate.
    + now rewrite IH.
Qed.

(** Sorting forgets the order of enumeration when names are distinct. *)
Lemma sorted_permutation (l l' : listing) :
  Permutation l l' -> NoDup (map fst l) -> sorted l = sorted l'.
Proof.
  induction 1 as [|x l l' P IH|x y l|l l' l'' P1 IH1 P2 IH2]; intros ND.
  - reflexivity.
  - cbn [sorted fold_right]. inversion ND; subst. f_equal. now apply IH.
  - cbn [sorted fold_right]. apply insert_entry_comm.
    inversion ND as [|? ? Hin _]; subst. intros E. apply Hin. left. now symmetry.
  - rewrite IH1 by assumption. apply IH2.
    apply (Permutation_NoDup (Permutation_map fst P1) ND).
Qed.

Lemma insert_entry_permutation (x : string * file) (l : listing) :
  Permutation (insert_entry x l) (x :: l).
Proof.
  induction l as [|y l IH]; cbn [insert_entry]; [reflexivity|].
  destruct (String.leb (fst x) (fst y)); [reflexivity|].
  rewrite IH. apply perm_swap.
Qed.

Lemma sorted_is_permutation (l : listing) : Permutation (sorted l) l.
Proof.
  induction l as [|x l IH]; [reflexivity|].
  cbn [sorted fold_right]. rewrite insert_entry_permutation. now constructor.
Qed.

Lemma insert_entry_sorted (x : string * file) (l : listing) :
  Sorted path_le l -> Sorted path_le (insert_entry x l).
Proof.
  induction 1 as [|y l S IH Hd]; cbn [insert_entry].
  - repeat constructor.
  - destruct (String.leb (fst x) (fst y)) eqn:E.
    + constructor; [now constructor|]. now constructor.
    + constructor; [assumption|].
      apply string_leb_false in E.
      destruct l as [|z l]; cbn [insert_entry]; [now constructor|].
      destruct (String.leb (fst x) (fst z)); constructor; [assumption|].
      now inversion Hd.
Qed.

Lemma sorted_is_sorted (l : listing) : Sorted path_le (sorted l).
Proof.
  induction l as [|x l IH]; [constructor|].
  cbn [sorted fold_right]. now apply insert_entry_sorted.
Qed.


Lemma glob_json_nodup (l : listing) :
  NoDup (map fst l) -> NoDup (map fst (glob_json l)).
Proof.
  unfold glob_json. induction l as [|x l IH]; cbn [filter map]; intros ND; [constructor|].
  inversion ND as [|? ? Hin ND']; subst.
  destruct (matches_json (fst x)); [|now apply IH].
  cbn [map]. constructor; [|now apply IH].
  intros H. apply Hin. apply in_map_iff in H as (e & E & He).
  apply filter_In in He as [He _]. apply in_map_iff. eauto.
Qed.


(** ** build_html *)

Lemma build_html_cases (py_repr : json -> string) (plugins : list json) (out : path) :
  build_html py_repr plugins out =
  match render_rows py_repr (enumerate plugins) with
  | Ret rows =>
      ([MkdirParents out;
        WriteText out (page (String.concat nl (fst rows)) (String.concat nl (snd rows)))],
       Ret tt)
  | Raise e => ([], Raise e)
  end.
Proof.
  unfold build_html, lift.
  destruct (render_rows py_repr (enumerate plugins)) as [rows|e]; reflexivity.
Qed.

Lemma render_rows_ret (py_repr : json -> string) (l : list (nat * json))
      (tocs bodies : list string) :
  render_rows py_repr l = Ret (tocs, bodies) <->
  exists rows,
    Forall2 (fun ip r => render_plugin py_repr (fst ip) (snd ip) = Ret r) l rows
    /\ tocs = map fst rows /\ bodies = map snd rows.
Proof.
  revert tocs bodies. induction l as [|[i p] l IH]; intros tocs bodies; cbn [render_rows].
  - split.
    + intros [= <- <-]. exists []. repeat split. constructor.
    + intros (rows & F & -> & ->). inversion F; subst. reflexivity.
  - rewrite rbind_ret. split.
    + intros (r & Er & H). apply rbind_ret in H as ([ts bs] & Ers & [= <- <-]).
      apply IH in Ers as (rows & F & -> & ->).
      exists (r :: rows). repeat split. now constructor.
    + intros (rows & F & -> & ->). inversion F as [|? r ? rows' Er F']; subst.
      exists r. split; [assumption|]. apply rbind_ret.
      exists (map fst rows', map snd rows'). split; [|reflexivity].
      apply IH. now exists rows'.
Qed.

Lemma valid_plugin_some (f : file) (q : json) :
  valid_plugin f = Some q <-> f = Parsed q /\ validate_plugin_json q = Ret [].
Proof.
  unfold valid_plugin. destruct f as [| | |v];
    try (split; [discriminate|intros [E _]; discriminate]).
  destruct (validate_plugin_json v) as [[|e errs]|e] eqn:Ev; split;
    try discriminate; try (intros [[= ->] E]; congruence).
  intros [= ->]. auto.
Qed.

Lemma in_valid_plugins (files : listing) (p : json) :
  In p (valid_plugins files) <->
  exists name, In (name, Parsed p) files /\ validate_plugin_json p = Ret [].
Proof.
  induction files as [|[n f] files IH]; cbn [valid_plugins].
  - split; [contradiction|]. intros (name & [] & _).
  - destruct (valid_plugin f) as [q|] eqn:Eq.
    + apply valid_plugin_some in Eq as [-> Eq]. cbn [In]. rewrite IH. split.
      * intros [<-|(name & Hin & Hv)]; [exists n; auto|exists name; auto].
      * intros (name & [[= <- <-]|Hin] & Hv); [now left|right; eauto].
    + rewrite IH. split.
      * intros (name & Hin & Hv). exists name. split; [now right|assumption].
      * intros (name & [[= <- ->]|Hin] & Hv); [|eauto].
        assert (X : valid_plugin (Parsed p) = Some p) by (apply valid_plugin_some; auto).
        congruence.
Qed.

Lemma in_sorted_glob (entries : listing) (name : string) (f : file) :
  In (name, f) (sorted (glob_json entries)) <->
  In (name, f) entries /\ matches_json name = true.
Proof.
  split.
  - intros H. apply (Permutation_in _ (sorted_is_permutation _)) in H.
    unfold glob_json in H. apply filter_In in H. exact H.
  - intros H. apply (Permutation_in _ (Permutation_sym (sorted_is_permutation _))).
    unfold glob_json. apply filter_In. exact H.
Qed.

(** When [collect_plugins] returns, it returns the plugins of the valid
    descriptor files, in path order. *)
Lemma collect_plugins_returns (dir : path) (entries : listing) (t : list event)
      (plugins : list json) :
  collect_plugins dir entries = (t, Ret plugins) ->
  plugins = valid_plugins (sorted (glob_json entries))
  /\ t = flat_map (file_events dir) (sorted (glob_json entries)).
Proof.
  unfold collect_plugins. intros E.
  apply collect_loop_returns in E as (_ & -> & ->). auto.
Qed.

(** ** main *)

Lemma main_with_arguments (py_repr : json -> string) (inv : invocation) (dir out : path)
      (entries : listing) :
  arg_input_dir inv = Some dir ->
  input_entries inv = Some entries ->
  arg_output_file inv = Some out ->
  main py_repr inv =
  bind (collect_plugins (resolve inv dir) entries)
       (render_collected py_repr (resolve inv out)).
Proof. intros E1 E2 E3. unfold main. now rewrite E1, E2, E3. Qed.

Lemma bind_outcome {A B : Type} (m : prog A) (k : A -> prog B) :
  bind m k =
  match snd m with
  | Ret a => (fst m ++ fst (k a), snd (k a))
  | Raise e => (fst m, Raise e)
  end.
Proof. destruct m as [t [a|e]]; cbn; [now destruct (k a)|reflexivity]. Qed.

Lemma render_collected_cases (py_repr : json -> string) (out : path) (plugins : list json) :
  render_collected py_repr out plugins =
  match plugins with
  | [] => ([Stderr NoPluginsFound], Ret 1)
  | _ :: _ =>
      match render_rows py_repr (enumerate plugins) with
      | Ret rows =>
          ([MkdirParents out;
            WriteText out (page (String.concat nl (fst rows)) (String.concat nl (snd rows)));
            Stdout (Wrote out (List.length plugins))],
           Ret 0)
      | Raise e => ([], Raise e)
      end
  end.
Proof.
  destruct plugins as [|p ps]; [reflexivity|].
  unfold render_collected. rewrite build_html_cases.
  destruct (render_rows py_repr (enumerate (p :: ps))); reflexivity.
Qed.

Lemma file_events_no_write (dir : path) (files : listing) :
  filter is_write (flat_map (file_events dir) files) = [].
Proof.
  induction files as [|[n f] files IH]; [reflexivity|].
  cbn [flat_map]. rewrite filter_app, IH, app_nil_r.
  unfold file_events. cbn [fst snd filter is_write].
  destruct f as [| | |v]; try reflexivity.
  assert (M : forall errs, filter is_write (map (fun x => Stderr (ValidationError x)) errs) = []).
  { induction errs as [|e errs IHe]; [reflexivity|exact IHe]. }
  destruct v; try reflexivity;
    destruct (validate_plugin_json _) as [[|e errs]|e]; try reflexivity;
    cbn [filter is_write]; apply (M (e :: errs)).
Qed.

Lemma file_events_opens (dir : path) (files : listing) (p : path) :
  In (OpenFile p) (flat_map (file_events dir) files) ->
  exists name f, In (name, f) files /\ p = joinpath dir name.
Proof.
  intros H. apply in_flat_map in H as ([name f] & Hin & H).
  exists name, f. split; [assumption|].
  unfold file_events in H. cbn [fst snd] in H. destruct H as [[= <-]|H]; [reflexivity|].
  exfalso. destruct f as [| | |v]; cbn in H.
  - intuition discriminate.
  - contradiction.
  - intuition discriminate.
  - assert (M : forall errs, ~ In (OpenFile p) (map (fun x => Stderr (ValidationError x)) errs)).
    { intros errs Hm. apply in_map_iff in Hm as (x & E & _). discriminate. }
    destruct v; try (destruct H as [H|[]]; discriminate);
      destruct (validate_plugin_json _) as [[|e errs]|e]; try contradiction;
      (destruct H as [H|H]; [discriminate|now apply (M (e :: errs))]).
Qed.

(** Whatever its outcome, the loop opens files of its list only and writes
    nothing. *)
Lemma collect_loop_trace (dir : path) (files : listing) (acc : list json) :
  filter is_write (fst (collect_loop dir files acc)) = []
  /\ forall p, In (OpenFile p) (fst (collect_loop dir files acc)) ->
               exists name f, In (name, f) files /\ p = joinpath dir name.
Proof.
  destruct (first_raising_file files) as [F|(pre & n & g & post & e & -> & F & R)].
  - rewrite (collect_loop_total dir files acc F). cbn [fst]. split.
    + apply file_events_no_write.
    + apply file_events_opens.
  - rewrite (collect_loop_aborts dir pre post n g e acc F R). cbn [fst]. split.
    + now rewrite filter_app, file_events_no_write.
    + intros p H. apply in_app_or in H as [H|[[= <-]|[]]].
      * apply file_events_opens in H as (name & f & Hin & ->).
        exists name, f. split; [|reflexivity]. apply in_or_app. now left.
      * exists n, g. split; [|reflexivity]. apply in_or_app. right. now left.
Qed.

Lemma render_collected_trace (py_repr : json -> string) (out : path) (plugins : list json)
      (p : path) :
  ~ In (OpenFile p) (fst (render_collected py_repr out plugins)).
Proof.
  rewrite render_collected_cases. destruct plugins as [|q ps].
  - cbn. intuition discriminate.
  - destruct (render_rows py_repr _); cbn; intuition discriminate.
Qed.

(** C7. A run that returns 0 writes the content of exactly one file, once:
    the HTML, at the resolved --output-file path. *)
Theorem successful_run_writes_one_file (py_repr : json -> string) (inv : invocation)
        (t : list event) :
  main py_repr inv = (t, Ret 0) ->
  exists out html,
    arg_output_file inv = Some out
    /\ filter is_write t = [WriteText (resolve inv out) html].
Proof.
  intros M.
  destruct (arg_input_dir inv) as [dir|] eqn:E1; [|unfold main in M; now rewrite E1 in M].
  destruct (input_entries inv) as [entries|] eqn:E2;
    [|unfold main in M; rewrite E1, E2 in M; discriminate].
  destruct (arg_output_file inv) as [out|] eqn:E3;
    [|unfold main in M; rewrite E1, E2, E3 in M; discriminate].
  rewrite (main_with_arguments py_repr inv dir out entries E1 E2 E3) in M.
  apply bind_ret_inv in M as (t1 & plugins & t2 & C & R & ->).
  rewrite render_collected_cases in R.
  destruct plugins as [|q ps]; [discriminate|].
  destruct (render_rows py_repr _) as [rows|e]; [|discriminate].
  injection R as <-.
  exists out, (page (String.concat nl (fst rows)) (String.concat nl (snd rows))).
  split; [reflexivity|].
  rewrite filter_app.
  pose proof (proj1 (collect_loop_trace (resolve inv dir) (sorted (glob_json entries)) [])) as W.
  unfold collect_plugins in C. rewrite C in W. cbn [fst] in W. now rewrite W.
Qed.

(** C6. The content of a file of the input directory whose name does not
    match the pattern *.json has no effect on the run, and every file the run
    opens is an entry of the input directory whose name matches the pattern. *)
Theorem only_json_files_are_read (py_repr : json -> string) (inv : invocation) :
  (forall pre post name f f',
      matches_json name = false ->
      main py_repr (with_entries inv (pre ++ (name, f) :: post))
      = main py_repr (with_entries inv (pre ++ (name, f') :: post)))
  /\ (forall p,
         In (OpenFile p) (fst (main py_repr inv)) ->
         exists dir entries name f,
           arg_input_dir inv = Some dir
           /\ input_entries inv = Some entries
           /\ In (name, f) entries
           /\ matches_json name = true
           /\ p = joinpath (resolve inv dir) name).
Proof.
  split.
  - intros pre post name f f' NM.
    assert (G : glob_json (pre ++ (name, f) :: post) = glob_json (pre ++ (name, f') :: post)).
    { unfold glob_json. rewrite !filter_app. cbn [filter fst]. now rewrite NM. }
    unfold main, with_entries. cbn [arg_input_dir arg_output_file resolve input_entries].
    destruct (arg_input_dir inv); [|reflexivity].
    destruct (arg_output_file inv); [|reflexivity].
    unfold collect_plugins. now rewrite G.
  - intros p H.
    destruct (arg_input_dir inv) as [dir|] eqn:E1;
      [|unfold main in H; rewrite E1 in H; contradiction].
    destruct (input_entries inv) as [entries|] eqn:E2;
      [|unfold main in H; rewrite E1, E2 in H; cbn in H; intuition discriminate].
    destruct (arg_output_file inv) as [out|] eqn:E3;
      [|unfold main in H; rewrite E1, E2, E3 in H; cbn in H; intuition discriminate].
    rewrite (main_with_arguments py_repr inv dir out entries E1 E2 E3), bind_outcome in H.
    assert (O : In (OpenFile p) (fst (collect_plugins (resolve inv dir) entries))).
    { destruct (snd (collect_plugins (resolve inv dir) entries)) as [ps|e];
        cbn [fst] in H; [|assumption].
      apply in_app_or in H as [H|H]; [assumption|].
      now apply render_collected_trace in H. }
    apply (proj2 (collect_loop_trace _ _ _)) in O as (name & f & Hin & ->).
    apply in_sorted_glob in Hin as [Hin Hm].
    exists dir, entries, name, f. auto.
Qed.

(** C1, as amended.  Given --input-dir, the run returns 1 exactly when the
    input directory is missing, --output-file was not given, or
    [collect_plugins] returns an empty list; it returns 0 exactly when the
    directory exists, --output-file was given, [collect_plugins] returns a
    list that is not empty and [build_html] returns; it returns no other
    status. *)
Theorem main_exit_status (py_repr : json -> string) (inv : invocation) :
  (snd (main py_repr inv) = Ret 1 <->
   exists dir,
     arg_input_dir inv = Some dir
     /\ (input_entries inv = None
         \/ (exists entries, input_entries inv = Some entries /\ arg_output_file inv = None)
         \/ (exists entries,
               input_entries inv = Some entries
               /\ snd (collect_plugins (resolve inv dir) entries) = Ret [])))
  /\ (snd (main py_repr inv) = Ret 0 <->
      exists dir entries out plugins,
        arg_input_dir inv = Some dir
        /\ input_entries inv = Some entries
        /\ arg_output_file inv = Some out
        /\ snd (collect_plugins (resolve inv dir) entries) = Ret plugins
        /\ plugins <> []
        /\ snd (build_html py_repr plugins (resolve inv out)) = Ret tt)
  /\ (forall c, snd (main py_repr inv) = Ret c -> c = 0 \/ c = 1).
Proof.
  destruct (arg_input_dir inv) as [dir|] eqn:E1.
  2:{ unfold main. rewrite E1. cbn. repeat split; try discriminate.
      - intros (d & E & _). discriminate.
      - intros (d & e & o & ps & E & _). discriminate. }
  destruct (input_entries inv) as [entries|] eqn:E2.
  2:{ unfold main. rewrite E1, E2. cbn. split; [|split].
      - split; [|reflexivity]. intros _. exists dir. auto.
      - split; [discriminate|]. intros (d & e & o & ps & _ & E & _). discriminate.
      - intros c [= <-]. auto. }
  destruct (arg_output_file inv) as [out|] eqn:E3.
  2:{ unfold main. rewrite E1, E2, E3. cbn. split; [|split].
      - split; [|reflexivity]. intros _. exists dir. split; [reflexivity|].
        right. left. now exists entries.
      - split; [discriminate|]. intros (d & e & o & ps & _ & _ & E & _). discriminate.
      - intros c [= <-]. auto. }
  rewrite (main_with_arguments py_repr inv dir out entries E1 E2 E3), bind_outcome.
  destruct (snd (collect_plugins (resolve inv dir) entries)) as [plugins|e] eqn:C.
  2:{ cbn [snd]. split; [|split]; [split; [discriminate|]|split; [discriminate|]|discriminate].
      - intros (d & [= <-] & [H|[(en & _ & H)|(en & [= <-] & H)]]); congruence.
      - intros (d & en & o & ps & [= <-] & [= <-] & _ & H & _). congruence. }
  cbn [snd]. rewrite render_collected_cases.
  destruct plugins as [|q ps].
  - cbn [snd]. split; [|split].
    + split; [|reflexivity]. intros _. exists dir. split; [reflexivity|].
      right. right. now exists entries.
    + split; [discriminate|].
      intros (d & en & o & ps & [= <-] & [= <-] & _ & H & N & _). congruence.
    + intros c [= <-]. auto.
  - destruct (render_rows py_repr (enumerate (q :: ps))) as [rows|e] eqn:R; cbn [snd].
    + split; [|split].
      * split; [discriminate|].
        intros (d & [= <-] & [H|[(en & _ & H)|(en & [= <-] & H)]]); congruence.
      * split; [|reflexivity]. intros _. exists dir, entries, out, (q :: ps).
        rewrite build_html_cases, R. cbn [snd]. repeat split; auto. discriminate.
      * intros c [= <-]. auto.
    + split; [|split].
      * split; [discriminate|].
        intros (d & [= <-] & [H|[(en & _ & H)|(en & [= <-] & H)]]); congruence.
      * split; [discriminate|].
        intros (d & en & o & ps' & [= <-] & [= <-] & [= <-] & H & N & B).
        rewrite C in H.
        injection H as <-. rewrite build_html_cases, R in B. discriminate.
      * discriminate.
Qed.

(** ** Rendering one plugin *)

Lemma escaped_field_is_string (d : dict) (key : string) (default x : json) (y : string) :
  py_get (JDict d) key default = Ret x ->
  escape_value x = Ret y ->
  forall v, dict_get d key = Some v -> exists s, v = JStr s.
Proof.
  cbn [py_get]. intros [= <-] E v G. rewrite G in E.
  destruct v; try discriminate. eauto.
Qed.

(** A plugin that renders is an object whose escaped fields, when present,
    are strings. *)
Lemma render_plugin_string_fields (py_repr : json -> string) (i : nat) (p : json)
      (r : string * string) :
  render_plugin py_repr i p = Ret r ->
  exists d,
    p = JDict d
    /\ forall key v, In key ESCAPED_KEYS -> dict_get d key = Some v -> exists s, v = JStr s.
Proof.
  intros R. destruct p; try discriminate. exists d. split; [reflexivity|].
  unfold render_plugin in R.
  apply rbind_ret in R as (c & Hc & R). apply rbind_ret in R as (company & Hcompany & R).
  apply rbind_ret in R as (n & Hn & R). apply rbind_ret in R as (name & Hname & R).
  cbn zeta in R.
  apply rbind_ret in R as (de & Hd & R). apply rbind_ret in R as (desc & Hdesc & R).
  apply rbind_ret in R as (u & Hu & R). apply rbind_ret in R as (site & Hsite & R).
  apply rbind_ret in R as (a & Ha & R). apply rbind_ret in R as (archs & Harchs & R).
  apply rbind_ret in R as (o & Ho & R). apply rbind_ret in R as (oses & Hoses & R).
  apply rbind_ret in R as (m & Hm & R).
  apply rbind_ret in R as (s & Hs & R). apply rbind_ret in R as (setup & Hsetup & R).
  intros key v Hk G. cbn [ESCAPED_KEYS In] in Hk.
  decompose [or] Hk; subst; try contradiction;
    eauto using escaped_field_is_string.
Qed.

Lemma in_enumerate_from {A : Type} (l : list A) (x : A) (i : nat) :
  In x l -> exists j, In (j, x) (enumerate_from i l).
Proof.
  revert i. induction l as [|y l IH]; intros i; [contradiction|].
  intros [->|H]; cbn [enumerate_from].
  - exists i. now left.
  - destruct (IH (S i) H) as (j & Hj). exists j. now right.
Qed.

Lemma render_rows_each (py_repr : json -> string) (l : list (nat * json))
      (rows : list string * list string) (i : nat) (p : json) :
  render_rows py_repr l = Ret rows -> In (i, p) l ->
  exists r, render_plugin py_repr i p = Ret r.
Proof.
  revert rows. induction l as [|[j q] l IH]; intros rows R H; [contradiction|].
  cbn [render_rows] in R. apply rbind_ret in R as (r & Er & R).
  apply rbind_ret in R as (rs & Ers & _).
  destruct H as [[= <- <-]|H]; [eauto|]. now apply (IH rs).
Qed.

(** C9. Rendering is not total over validated input.  The descriptor whose
    Name is null is accepted by the validator and makes [build_html] raise
    instead of writing a page; so does every plugin list holding an object one
    of whose fields Name, Description, Company, SiteURL, SetupNotes is null;
    and when [build_html] returns, each of these fields, in every object of
    the list where it is present, is a string. *)
Theorem rendering_is_partial_on_validated_input (py_repr : json -> string) :
  (validate_plugin_json plugin_with_null_name = Ret []
   /\ forall out,
       build_html py_repr [plugin_with_null_name] out = ([], Raise AttributeError))
  /\ (forall plugins out t,
         build_html py_repr plugins out = (t, Ret tt) ->
         forall d key v,
           In (JDict d) plugins -> In key ESCAPED_KEYS -> dict_get d key = Some v ->
           exists s, v = JStr s)
  /\ (forall plugins out d key,
         In (JDict d) plugins -> In key ESCAPED_KEYS -> dict_get d key = Some JNull ->
         exists e, build_html py_repr plugins out = ([], Raise e)).
Proof.
  assert (S : forall plugins out t,
             build_html py_repr plugins out = (t, Ret tt) ->
             forall d key v,
               In (JDict d) plugins -> In key ESCAPED_KEYS -> dict_get d key = Some v ->
               exists s, v = JStr s).
  { intros plugins out t B d key v Hin Hk G.
    rewrite build_html_cases in B.
    destruct (render_rows py_repr (enumerate plugins)) as [rows|e] eqn:R; [|discriminate].
    destruct (in_enumerate_from plugins (JDict d) 0 Hin) as (j & Hj).
    destruct (render_rows_each py_repr _ rows j (JDict d) R Hj) as (r & Er).
    apply render_plugin_string_fields in Er as (d' & [= <-] & F). eauto. }
  split; [|split].
  - split; [reflexivity|]. intros out. reflexivity.
  - exact S.
  - intros plugins out d key Hin Hk G.
    destruct (build_html py_repr plugins out) as [t [[]|e]] eqn:B.
    + destruct (S plugins out t B d key JNull Hin Hk G) as (s & E). discriminate.
    + rewrite build_html_cases in B.
      destruct (render_rows py_repr (enumerate plugins)); [discriminate|].
      injection B as <- <-. eauto.
Qed.

(** ** Images *)

Lemma dict_get_app (b a : dict) (key : string) :
  dict_get (b ++ a) key =
  match dict_get b key with
  | Some v => Some v
  | None => dict_get a key
  end.
Proof.
  induction b as [|[k v] b IH]; cbn [app dict_get]; [reflexivity|].
  destruct (String.eqb key k); [reflexivity|exact IH].
Qed.

Lemma py_get_other_key (before after : dict) (l l' : list json) (key : string)
      (default : json) :
  key <> "Images" ->
  py_get (with_images before after l) key default
  = py_get (with_images before after l') key default.
Proof.
  intros N. unfold with_images. cbn [py_get]. rewrite !dict_get_app. cbn [dict_get].
  destruct (String.eqb_spec key "Images"); [contradiction|reflexivity].
Qed.

(** The image block reads the first entry of the list only. *)
Lemma plugin_image_html_first (before after : dict) (x : json) (rest rest' : list json)
      (name : string) :
  plugin_image_html (with_images before after (x :: rest)) name
  = plugin_image_html (with_images before after (x :: rest')) name.
Proof.
  unfold plugin_image_html, with_images. cbn [py_get]. rewrite !dict_get_app.
  destruct (dict_get before "Images") as [v|]; reflexivity.
Qed.

Lemma render_plugin_first_image (py_repr : json -> string) (i : nat) (before after : dict)
      (x : json) (rest rest' : list json) :
  render_plugin py_repr i (with_images before after (x :: rest))
  = render_plugin py_repr i (with_images before after (x :: rest')).
Proof.
  unfold render_plugin.
  repeat first
    [ rewrite (py_get_other_key before after (x :: rest) (x :: rest')) by discriminate
    | rewrite (plugin_image_html_first before after x rest rest')
    | match goal with
      | |- rbind ?r _ = rbind ?r _ => destruct r; cbn [rbind]; [|reflexivity]
      end ].
  reflexivity.
Qed.

Lemma render_rows_first_image (py_repr : json -> string) (before after : dict) (x : json)
      (rest rest' : list json) (ps1 ps2 : list json) (i : nat) :
  render_rows py_repr
    (enumerate_from i (ps1 ++ with_images before after (x :: rest) :: ps2))
  = render_rows py_repr
      (enumerate_from i (ps1 ++ with_images before after (x :: rest') :: ps2)).
Proof.
  revert i. induction ps1 as [|q ps1 IH]; intros i; cbn [app enumerate_from render_rows].
  - now rewrite (render_plugin_first_image py_repr i before after x rest rest').
  - now rewrite IH.
Qed.

(** C10. [build_html] renders at most the first entry of a plugin's Images
    list: replacing the entries after the first changes nothing of what
    [build_html] does; the image of a plugin is the empty string when Images is
    absent or empty, and whenever it is computed for a first entry whose Path
    is missing or empty; the body row of a plugin is built from that image, and
    for the empty image its thumbnail line holds no markup. *)
Theorem only_first_image_is_rendered (py_repr : json -> string) :
  (forall before after x rest rest' ps1 ps2 out,
      build_html py_repr (ps1 ++ with_images before after (x :: rest) :: ps2) out
      = build_html py_repr (ps1 ++ with_images before after (x :: rest') :: ps2) out)
  /\ (forall d name,
         dict_get d "Images" = None \/ dict_get d "Images" = Some (JList []) ->
         plugin_image_html (JDict d) name = Ret EmptyString)
  /\ (forall d first rest name html,
         dict_get d "Images" = Some (JList (JDict first :: rest)) ->
         dict_get first "Path" = None \/ dict_get first "Path" = Some (JStr EmptyString) ->
         plugin_image_html (JDict d) name = Ret html ->
         html = EmptyString)
  /\ (forall i p toc body,
         render_plugin py_repr i p = Ret (toc, body) ->
         exists name desc img_html archs oses min_ver setup_notes site_link company,
           plugin_image_html p name = Ret img_html
           /\ body = body_row ("plugin-" ++ nat_to_string i) name desc img_html archs oses
                              min_ver setup_notes site_link company)
  /\ thumb_html EmptyString = EmptyString.
Proof.
  split; [|split; [|split; [|split]]].
  - intros before after x rest rest' ps1 ps2 out.
    rewrite !build_html_cases. unfold enumerate.
    now rewrite (render_rows_first_image py_repr before after x rest rest').
  - intros d name [E|E]; unfold plugin_image_html; cbn [py_get rbind]; now rewrite E.
  - intros d first rest name html E P.
    unfold plugin_image_html. cbn [py_get rbind]. rewrite E.
    cbn [py_or truthy py_first rbind py_get].
    destruct (escape_value _) as [alt|e]; cbn [rbind]; [|discriminate].
    destruct P as [P|P]; rewrite P; cbn; now intros [= <-].
  - intros i p toc body R. unfold render_plugin in R.
    apply rbind_ret in R as (c & Hc & R). apply rbind_ret in R as (company & Hcompany & R).
    apply rbind_ret in R as (n & Hn & R). apply rbind_ret in R as (name & Hname & R).
    cbn zeta in R.
    apply rbind_ret in R as (de & Hd & R). apply rbind_ret in R as (desc & Hdesc & R).
    apply rbind_ret in R as (u & Hu & R). apply rbind_ret in R as (site & Hsite & R).
    apply rbind_ret in R as (a & Ha & R). apply rbind_ret in R as (archs & Harchs & R).
    apply rbind_ret in R as (o & Ho & R). apply rbind_ret in R as (oses & Hoses & R).
    apply rbind_ret in R as (m & Hm & R).
    apply rbind_ret in R as (s & Hs & R). apply rbind_ret in R as (setup & Hsetup & R).
    apply rbind_ret in R as (img & Himg & R). injection R as <- <-.
    repeat eexists. exact Himg.
  - reflexivity.
Qed.

(** ** Rejected files *)

(** Among files none of which raises, every file that fails to parse or
    fails validation is reported on stderr and contributes no plugin, and the
    plugins collected are those of the remaining files. *)
Lemma collect_plugins_skips_rejected_files (dir : path) (entries : listing) :
  Forall (fun entry => file_raises (snd entry) = None) (sorted (glob_json entries)) ->
  collect_plugins dir entries
  = (flat_map (file_events dir) (sorted (glob_json entries)),
     Ret (valid_plugins (sorted (glob_json entries))))
  /\ forall name f,
       In (name, f) (sorted (glob_json entries)) -> rejected f ->
       valid_plugin f = None
       /\ (In (Stderr (FailedToLoad (joinpath dir name))) (file_events dir (name, f))
           \/ In (Stderr (InvalidFormat (joinpath dir name))) (file_events dir (name, f))).
Proof.
  intros F. split.
  - unfold collect_plugins. now rewrite (collect_loop_total dir _ [] F).
  - intros name f Hin Rj. rewrite Forall_forall in F. specialize (F _ Hin). cbn [snd] in F.
    unfold file_events, valid_plugin. cbn [fst snd].
    destruct f as [| | |v]; cbn [file_raises rejected] in *; try discriminate.
    + split; [reflexivity|]. left. right. right. now left.
    + split; [reflexivity|]. left. right. right. now left.
    + destruct (validate_plugin_json v) as [[|e errs]|e] eqn:Ev; try discriminate.
      * contradiction.
      * split; [reflexivity|].
        destruct v; try (right; right; left; reflexivity).
        left. right. now left.
Qed.

(** C4. On a directory that holds a descriptor whose Architectures has an
    array as an item, followed in path order by a valid descriptor,
    [collect_plugins] neither logs and skips the invalid descriptor nor goes on
    to the valid one: validation raises TypeError and the exception leaves
    [collect_plugins], although without the invalid file the valid descriptor
    is collected. *)
Theorem collect_plugins_aborts_on_unhashable_item :
  validate_plugin_json plugin_with_nested_architecture = Raise TypeError
  /\ collect_plugins "plugins" directory_with_nested_architecture
     = ([OpenFile "plugins/nested.json"], Raise TypeError)
  /\ collect_plugins "plugins" [("tracer.json", Parsed sample_plugin)]
     = ([OpenFile "plugins/tracer.json"], Ret [sample_plugin]).
Proof. repeat split; vm_compute; reflexivity. Qed.

(** ** The properties on the sample data *)

(** C1, as worded, fails on the run without --output-file: the input
    directory exists and holds a valid plugin file, and the status is 1. *)
Lemma exit_status_without_output_file :
  snd (main unused_repr invocation_without_output) = Ret 1
  /\ ~ no_input invocation_without_output
  /\ ~ fails_only_without_input unused_repr invocation_without_output.
Proof.
  assert (M : snd (main unused_repr invocation_without_output) = Ret 1) by reflexivity.
  assert (N : ~ no_input invocation_without_output).
  { intros [E|(dir & entries & E1 & E2 & C)]; [discriminate|].
    injection E1 as <-. injection E2 as <-. vm_compute in C. discriminate. }
  split; [exact M|]. split; [exact N|].
  intros [H _]. apply N. apply (H 1 M). discriminate.
Qed.

(** C2. On a directory of two descriptors that both parse and validate, one
    of which has a null Name, no page lists the valid entries:
    [collect_plugins] returns both plugins, [build_html] raises
    [AttributeError] while it renders the one with the null Name, and the run
    ends without having written anything. *)
Theorem valid_entries_are_listed_nowhere :
  validate_plugin_json plugin_with_null_name = Ret []
  /\ validate_plugin_json sample_plugin = Ret []
  /\ snd (collect_plugins "/work/plugins" directory_with_null_name)
     = Ret [plugin_with_null_name; sample_plugin]
  /\ build_html unused_repr [plugin_with_null_name; sample_plugin] "/work/site/index.html"
     = ([], Raise AttributeError)
  /\ snd (main unused_repr invocation_with_null_name) = Raise AttributeError
  /\ filter is_write (fst (main unused_repr invocation_with_null_name)) = [].
Proof.
  split; [vm_compute; reflexivity|]. split; [vm_compute; reflexivity|].
  split; [vm_compute; reflexivity|]. split; [vm_compute; reflexivity|].
  split; vm_compute; reflexivity.
Qed.


Lemma only_json_files_are_read_sample :
  matches_json "README.md" = false
  /\ main unused_repr
       (with_entries sample_invocation
          ([("tracer.json", Parsed sample_plugin)] ++ ("README.md", Undecodable) :: []))
     = main unused_repr
         (with_entries sample_invocation
            ([("tracer.json", Parsed sample_plugin)] ++ ("README.md", NotJSON) :: []))
  /\ In (OpenFile "/work/plugins/tracer.json") (fst (main unused_repr sample_invocation))
  /\ exists dir entries name f,
       arg_input_dir sample_invocation = Some dir
       /\ input_entries sample_invocation = Some entries
       /\ In (name, f) entries
       /\ matches_json name = true
       /\ "/work/plugins/tracer.json" = joinpath (resolve sample_invocation dir) name.
Proof.
  assert (M : matches_json "README.md" = false) by reflexivity.
  assert (O : In (OpenFile "/work/plugins/tracer.json")
                 (fst (main unused_repr sample_invocation))).
  { vm_compute. tauto. }
  split; [exact M|]. split.
  - exact (proj1 (only_json_files_are_read unused_repr sample_invocation) _ _ _ _ _ M).
  - split; [exact O|].
    exact (proj2 (only_json_files_are_read unused_repr sample_invocation) _ O).
Defined.

Lemma successful_run_writes_one_file_sample :
  main unused_repr sample_invocation = (fst (main unused_repr sample_invocation), Ret 0)
  /\ exists out html,
       arg_output_file sample_invocation = Some out
       /\ filter is_write (fst (main unused_repr sample_invocation))
          = [WriteText (resolve sample_invocation out) html].
Proof.
  assert (M : main unused_repr sample_invocation
              = (fst (main unused_repr sample_invocation), Ret 0))
    by (vm_compute; reflexivity).
  split; [exact M|].
  exact (successful_run_writes_one_file unused_repr sample_invocation _ M).
Defined.

Lemma rendering_is_partial_on_validated_input_sample :
  build_html unused_repr [sample_plugin] "index.html"
  = (fst (build_html unused_repr [sample_plugin] "index.html"), Ret tt)
  /\ (exists s, JStr "Tracer" = JStr s)
  /\ exists e, build_html unused_repr [plugin_with_null_name] "index.html" = ([], Raise e).
Proof.
  assert (B : build_html unused_repr [sample_plugin] "index.html"
              = (fst (build_html unused_repr [sample_plugin] "index.html"), Ret tt))
    by (vm_compute; reflexivity).
  split; [exact B|]. split.
  - refine (proj1 (proj2 (rendering_is_partial_on_validated_input unused_repr))
                  [sample_plugin] "index.html" _ B sample_fields "Name" (JStr "Tracer") _ _ eq_refl).
    + left. reflexivity.
    + left. reflexivity.
  - refine (proj2 (proj2 (rendering_is_partial_on_validated_input unused_repr))
                  [plugin_with_null_name] "index.html" null_name_fields "Name" _ _ eq_refl).
    + left. reflexivity.
    + left. reflexivity.
Defined.

Lemma only_first_image_is_rendered_sample :
  dict_get plugin_without_image_path "Images"
  = Some (JList [JDict [("Description", JStr "logo")]; JDict [("Path", JStr "b.png")]])
  /\ plugin_image_html (JDict plugin_without_image_path) "Tracer" = Ret EmptyString
  /\ EmptyString = EmptyString.
Proof.
  assert (I : dict_get plugin_without_image_path "Images"
              = Some (JList [JDict [("Description", JStr "logo")];
                             JDict [("Path", JStr "b.png")]])) by reflexivity.
  assert (R : plugin_image_html (JDict plugin_without_image_path) "Tracer" = Ret EmptyString)
    by reflexivity.
  split; [exact I|]. split; [exact R|].
  exact (proj1 (proj2 (proj2 (only_first_image_is_rendered unused_repr)))
               plugin_without_image_path _ _ "Tracer" EmptyString I (or_introl eq_refl) R).
Defined.

(** * Further properties *)

(** ** validate_plugin_json: acceptance, exceptions, reported errors *)

(** X1. The validator returns an empty error list exactly on an object that
    has the seven required keys, whose SchemaVersion is an [int] instance equal
    to 1 (the integer 1 or the boolean true), whose six string fields are each
    absent, null or a string, whose Architectures and OperatingSystems are
    lists of allowed strings, and whose Images, when present, is a list of
    objects with Path and Description each absent, null or a string. *)
Theorem validator_accepts_exactly (data : json) :
  validate_plugin_json data = Ret [] <-> accepted_by_validator data.
Proof. apply validate_plugin_json_accepts. Qed.

Lemma forallb_false_witness {A : Type} (f : A -> bool) (l : list A) :
  forallb f l = false -> exists x, In x l /\ f x = false.
Proof.
  induction l as [|x l IH]; cbn [forallb]; [discriminate|].
  destruct (f x) eqn:E; cbn [andb].
  - intros H. destruct (IH H) as (y & Hy & Ey). exists y. split; [now right|assumption].
  - intros _. exists x. split; [now left|assumption].
Qed.

Lemma unhashable_not_str (v : json) : hashable v = false -> is_str v = false.
Proof. now destruct v. Qed.

Lemma class_differs_not_both_str (x y : json) :
  sort_class_eqb (class_of x) (class_of y) = false ->
  is_str x = false \/ is_str y = false.
Proof. destruct x, y; cbn; auto; discriminate. Qed.

(** An enumerated field raises [TypeError] only, and only on a list that
    holds an item that is not a string. *)
Lemma enum_field_errors_raise (d : dict) (key : string) (e : exn) :
  enum_field_errors d key = Raise e ->
  e = TypeError
  /\ exists l item, dict_get d key = Some (JList l) /\ In item l /\ is_str item = false.
Proof.
  unfold enum_field_errors.
  destruct (dict_get d key) as [v|]; [|discriminate].
  destruct v; try discriminate.
  destruct (valid_values key) as [valid|]; [|discriminate].
  destruct (forallb hashable l) eqn:H.
  - destruct (filter _ l) as [|x rest] eqn:F; [discriminate|].
    destruct (sortable (x :: rest)) eqn:S; [discriminate|].
    intros [= <-]. split; [reflexivity|].
    cbn [sortable] in S. apply forallb_false_witness in S as (y & Hy & C).
    assert (Sub : forall z, In z (x :: rest) -> In z l).
    { intros z Hz. rewrite <- F in Hz. now apply filter_In in Hz. }
    assert (Hx : In x l) by (apply Sub; now left).
    assert (Hy' : In y l) by (apply Sub; now right).
    exists l. destruct (class_differs_not_both_str x y C) as [N|N]; eauto.
  - intros [= <-]. split; [reflexivity|].
    apply forallb_false_witness in H as (x & Hx & N).
    exists l, x. auto using unhashable_not_str.
Qed.

(** X2. The validator raises nothing but [TypeError], and raises only on
    an object whose Architectures or OperatingSystems is a list holding an item
    that is not a string; on every datum where the items of both lists are all
    strings it returns a list of errors. *)
Theorem validate_raises_only_on_non_string_items :
  (forall data e,
      validate_plugin_json data = Raise e ->
      e = TypeError
      /\ exists d key l item,
           data = JDict d /\ In key ENUM_KEYS
           /\ dict_get d key = Some (JList l) /\ In item l /\ is_str item = false)
  /\ (forall data,
         (forall d key l,
             data = JDict d -> In key ENUM_KEYS -> dict_get d key = Some (JList l) ->
             forallb is_str l = true) ->
         exists errs, validate_plugin_json data = Ret errs).
Proof.
  assert (R : forall data e,
             validate_plugin_json data = Raise e ->
             e = TypeError
             /\ exists d key l item,
                  data = JDict d /\ In key ENUM_KEYS
                  /\ dict_get d key = Some (JList l) /\ In item l /\ is_str item = false).
  { intros data e V. destruct data; try discriminate.
    unfold validate_plugin_json in V.
    destruct (enum_field_errors d "Architectures") as [arch|ea] eqn:Ea.
    - cbn [rbind] in V.
      destruct (enum_field_errors d "OperatingSystems") as [os|eo] eqn:Eo; [discriminate|].
      cbn [rbind] in V. injection V as <-.
      destruct (enum_field_errors_raise d _ _ Eo) as (-> & l & item & G & Hin & N).
      split; [reflexivity|]. exists d, "OperatingSystems", l, item.
      repeat split; auto. right. now left.
    - cbn [rbind] in V. injection V as <-.
      destruct (enum_field_errors_raise d _ _ Ea) as (-> & l & item & G & Hin & N).
      split; [reflexivity|]. exists d, "Architectures", l, item.
      repeat split; auto. now left. }
  split; [exact R|].
  intros data H. destruct (validate_plugin_json data) as [errs|e] eqn:V; [eauto|].
  destruct (R data e V) as (_ & d & key & l & item & -> & Hk & G & Hin & N).
  specialize (H d key l eq_refl Hk G).
  rewrite forallb_forall in H. rewrite (H item Hin) in N. discriminate.
Qed.

Lemma filter_flat_map_nil {A B : Type} (p : B -> bool) (f : A -> list B) (l : list A) :
  (forall x, filter p (f x) = []) -> filter p (flat_map f l) = [].
Proof.
  intros H. induction l as [|x l IH]; [reflexivity|].
  cbn [flat_map]. now rewrite filter_app, H, IH.
Qed.

Lemma schema_version_errors_kind (d : dict) :
  filter is_missing_key (schema_version_errors d) = [].
Proof.
  unfold schema_version_errors. destruct (dict_get d "SchemaVersion") as [v|]; [|reflexivity].
  destruct (int_value v) as [n|]; [|reflexivity]. now destruct (n =? 1).
Qed.

Lemma string_field_errors_kind (d : dict) (keys : list string) :
  filter is_missing_key (string_field_errors d keys) = [].
Proof.
  apply filter_flat_map_nil. intros key.
  destruct (dict_get d key) as [v|]; [|reflexivity].
  now destruct (is_none v || is_str v).
Qed.

Lemma enum_field_errors_kind (d : dict) (key : string) (errs : list verror) :
  enum_field_errors d key = Ret errs -> filter is_missing_key errs = [].
Proof.
  unfold enum_field_errors.
  destruct (dict_get d key) as [v|]; [|now intros [= <-]].
  destruct v; try now intros [= <-].
  assert (I : filter is_missing_key
                (flat_map (fun '(i, item) => if is_str item then [] else [ItemMustBeString key i])
                          (enumerate l)) = []).
  { apply filter_flat_map_nil. intros [i item]. now destruct (is_str item). }
  destruct (valid_values key) as [valid|]; [|now intros [= <-]].
  destruct (forallb hashable l); [|discriminate].
  destruct (filter _ l) as [|x rest]; [now intros [= <-]|].
  destruct (sortable (x :: rest)); [|discriminate].
  intros [= <-]. now rewrite filter_app, I.
Qed.

Lemma images_errors_kind (d : dict) : filter is_missing_key (images_errors d) = [].
Proof.
  unfold images_errors. destruct (dict_get d "Images") as [v|]; [|reflexivity].
  destruct v; try reflexivity.
  apply filter_flat_map_nil. intros [i entry]. unfold image_entry_errors.
  destruct entry; try reflexivity.
  rewrite filter_app. unfold image_field_error.
  destruct (dict_get d0 "Path") as [v|]; [destruct (is_none v || is_str v)|];
    (destruct (dict_get d0 "Description") as [w|]; [destruct (is_none w || is_str w)|]);
    reflexivity.
Qed.

Lemma missing_key_errors_kind (d : dict) (keys : list string) :
  filter is_missing_key
    (flat_map (fun key => if dict_has d key then [] else [MissingKey key]) keys)
  = map MissingKey (filter (fun key => negb (dict_has d key)) keys).
Proof.
  induction keys as [|k keys IH]; [reflexivity|].
  cbn [flat_map filter]. rewrite filter_app, IH.
  now destruct (dict_has d k).
Qed.

(** X3. Whenever the validator returns on an object, the missing-key errors
    of its list are exactly the required keys the object lacks, each reported
    once, in the order of REQUIRED_KEYS, and they come before every other
    error. *)
Theorem validate_reports_missing_keys (d : dict) (errs : list verror) :
  validate_plugin_json (JDict d) = Ret errs ->
  filter is_missing_key errs
  = map MissingKey (filter (fun key => negb (dict_has d key)) REQUIRED_KEYS)
  /\ exists others,
       errs = missing_key_errors d ++ others /\ filter is_missing_key others = [].
Proof.
  unfold validate_plugin_json. intros V.
  apply rbind_ret in V as (arch & Ea & V). apply rbind_ret in V as (os & Eo & V).
  apply ret_inj in V. subst errs.
  pose proof (enum_field_errors_kind d _ _ Ea) as Ka.
  pose proof (enum_field_errors_kind d _ _ Eo) as Ko.
  assert (K : filter is_missing_key
                (schema_version_errors d
                 ++ string_field_errors d ["Name"; "Description"; "Company"; "SiteURL"]
                 ++ arch ++ os ++ images_errors d
                 ++ string_field_errors d ["MinNsightSystemsVersion"; "SetupNotes"]) = []).
  { rewrite !filter_app, Ka, Ko, schema_version_errors_kind, images_errors_kind,
      !string_field_errors_kind. reflexivity. }
  split.
  - rewrite <- !app_assoc, filter_app, K, app_nil_r. apply missing_key_errors_kind.
  - eexists. split; [|exact K]. now rewrite <- !app_assoc.
Qed.

(** ** escape: injectivity, composition, fixed points *)

Lemma escape_char_cancel (a b : ascii) (t1 t2 : string) :
  (escape_char a ++ t1)%string = (escape_char b ++ t2)%string -> a = b /\ t1 = t2.
Proof.
  split_char a; split_char b; unfold amp_char, lt_char, gt_char, quot_char in *;
    cbn [append]; intros H; inversion H; subst; try contradiction; auto.
Qed.

Lemma escape_char_not_nil (c : ascii) (t : string) : (escape_char c ++ t)%string <> EmptyString.
Proof. split_char c; discriminate. Qed.

Lemma escape_chars_inj (s1 s2 : string) : escape_chars s1 = escape_chars s2 -> s1 = s2.
Proof.
  revert s2. induction s1 as [|a s1 IH]; intros [|b s2]; cbn [escape_chars]; intros H.
  - reflexivity.
  - symmetry in H. now apply escape_char_not_nil in H.
  - now apply escape_char_not_nil in H.
  - apply escape_char_cancel in H as [-> H]. f_equal. now apply IH.
Qed.

(** X4. [escape] loses no information: two strings with the same escaped
    text are the same string. *)
Theorem escape_is_injective (s1 s2 : string) : escape s1 = escape s2 -> s1 = s2.
Proof. rewrite !escape_is_escape_chars. apply escape_chars_inj. Qed.

Lemma string_length_app (a b : string) :
  String.length (a ++ b) = (String.length a + String.length b)%nat.
Proof. induction a as [|c a IH]; cbn; [reflexivity|now rewrite IH]. Qed.

Lemma escape_char_length (c : ascii) : (1 <= String.length (escape_char c))%nat.
Proof. split_char c; cbn; lia. Qed.

Lemma escape_chars_length (s : string) :
  (String.length s <= String.length (escape_chars s))%nat.
Proof.
  induction s as [|c s IH]; cbn [escape_chars String.length]; [lia|].
  rewrite string_length_app. pose proof (escape_char_length c). lia.
Qed.

Lemma string_forallb_app (p : ascii -> bool) (a b : string) :
  string_forallb p (a ++ b) = string_forallb p a && string_forallb p b.
Proof.
  induction a as [|c a IH]; cbn [append string_forallb]; [reflexivity|].
  now rewrite IH, andb_assoc.
Qed.

Lemma special_char_cases (c : ascii) :
  special_char c = false -> escape_char c = String c EmptyString.
Proof.
  unfold special_char, markup_char, escape_char. intros H.
  apply orb_false_elim in H as [-> H]. apply orb_false_elim in H as [H ->].
  apply orb_false_elim in H as [-> ->]. reflexivity.
Qed.

Lemma special_char_escaped (c : ascii) :
  special_char c = true -> plain (escape_char c) = false /\ (2 <= String.length (escape_char c))%nat.
Proof.
  unfold special_char, markup_char.
  split_char c; try (intros _; split; [reflexivity|cbn; lia]).
  cbn. intros H. discriminate H.
Qed.

(** Escaping keeps a string free of special characters, or not, as it was. *)
Lemma plain_escape_chars (s : string) : plain (escape_chars s) = plain s.
Proof.
  unfold plain. induction s as [|c s IH]; [reflexivity|].
  cbn [escape_chars string_forallb]. rewrite string_forallb_app, IH.
  destruct (special_char c) eqn:S.
  - destruct (special_char_escaped c S) as [P _]. unfold plain in P. now rewrite P.
  - rewrite (special_char_cases c S). cbn [string_forallb]. now rewrite S.
Qed.

Lemma escape_chars_fixed (s : string) : escape_chars s = s <-> plain s = true.
Proof.
  unfold plain. induction s as [|c s IH]; cbn [escape_chars string_forallb].
  - now split.
  - destruct (special_char c) eqn:S; cbn [negb andb].
    + split; [|discriminate]. intros H. exfalso.
      apply (f_equal String.length) in H. rewrite string_length_app in H.
      cbn [String.length] in H.
      destruct (special_char_escaped c S) as [_ L].
      pose proof (escape_chars_length s). lia.
    + rewrite (special_char_cases c S). cbn [append]. rewrite <- IH. split.
      * now intros [= ->].
      * now intros ->.
Qed.

(** X5. [escape] distributes over concatenation and never shortens a
    string; it leaves a string unchanged exactly when the string holds none of
    the four special characters, and escaping an escaped string changes it
    again exactly when the original holds one of them. *)
Theorem escape_composition_and_fixed_points :
  (forall a b, escape (a ++ b) = (escape a ++ escape b)%string)
  /\ (forall s, (String.length s <= String.length (escape s))%nat)
  /\ (forall s, escape s = s <-> plain s = true)
  /\ (forall s, escape (escape s) = escape s <-> plain s = true).
Proof.
  split; [|split; [|split]].
  - apply escape_app.
  - intros s. rewrite escape_is_escape_chars. apply escape_chars_length.
  - intros s. rewrite escape_is_escape_chars. apply escape_chars_fixed.
  - intros s. rewrite !escape_is_escape_chars, escape_chars_fixed. now rewrite plain_escape_chars.
Qed.

(** ** Rendering validated data *)

Lemma escaped_field_outcome (d : dict) (key : string) (default : string) :
  optional_string d key ->
  (dict_get d key = Some JNull
   /\ escape_value (match dict_get d key with Some v => v | None => JStr default end)
      = Raise AttributeError)
  \/ (dict_get d key <> Some JNull
      /\ exists s,
           escape_value (match dict_get d key with Some v => v | None => JStr default end)
           = Ret s).
Proof.
  intros O. unfold optional_string in O.
  destruct (dict_get d key) as [v|]; [|right; split; [discriminate|cbn; eauto]].
  destruct (O v eq_refl) as [->|(s & ->)].
  - left. auto.
  - right. split; [discriminate|cbn; eauto].
Qed.

Lemma strings_of_strings (valid : list string) (l : list json) :
  Forall (fun item => exists s, item = JStr s /\ In s valid) l ->
  exists ss, strings_of l = Some ss.
Proof.
  induction 1 as [|x l (s & -> & _) F (ss & IH)]; cbn [strings_of]; [eauto|].
  rewrite IH. cbn. eauto.
Qed.

Lemma py_join_strings (valid : list string) (sep : string) (v : json) :
  strings_from valid v -> exists s, py_join sep v = Ret s.
Proof.
  intros (l & -> & F). destruct (strings_of_strings valid l F) as (ss & E).
  cbn [py_join]. rewrite E. eauto.
Qed.

(** The image block on validated data: it returns unless the first image has
    a null Description, on which it raises [AttributeError]. *)
Lemma plugin_image_html_validated (d : dict) (name : string) :
  (forall img, dict_get d "Images" = Some img -> exists l, img = JList l /\ Forall image_entry l) ->
  ((exists e rest,
       dict_get d "Images" = Some (JList (JDict e :: rest))
       /\ dict_get e "Description" = Some JNull)
   /\ plugin_image_html (JDict d) name = Raise AttributeError)
  \/ ((forall e rest,
          dict_get d "Images" = Some (JList (JDict e :: rest)) ->
          dict_get e "Description" <> Some JNull)
      /\ exists s, plugin_image_html (JDict d) name = Ret s).
Proof.
  intros H. unfold plugin_image_html. cbn [py_get rbind].
  destruct (dict_get d "Images") as [img|] eqn:E.
  2:{ right. split; [discriminate|cbn; eauto]. }
  destruct (H img eq_refl) as (l & -> & F).
  destruct F as [|first l (e & -> & OP & OD) F].
  { right. split; [discriminate|cbn; eauto]. }
  cbn [py_or truthy py_first rbind py_get].
  destruct (escaped_field_outcome e "Description" name OD) as [[N R]|[N (alt & R)]];
    rewrite R; cbn [rbind].
  - left. split; [|reflexivity]. now exists e, l.
  - right. split.
    + intros e' rest [= <- <-]. exact N.
    + unfold optional_string in OP.
      destruct (dict_get e "Path") as [v|]; [|cbn; eauto].
      destruct (OP v eq_refl) as [->|(s & ->)]; [cbn; eauto|].
      destruct (truthy (JStr s)); cbn; eauto.
Qed.

(** Rendering one validated object: it returns exactly when the object is
    renderable, and raises [AttributeError] otherwise. *)
Lemma render_plugin_validated (py_repr : json -> string) (i : nat) (d : dict) :
  accepted_by_validator (JDict d) ->
  (renderable d /\ exists r, render_plugin py_repr i (JDict d) = Ret r)
  \/ (~ renderable d /\ render_plugin py_repr i (JDict d) = Raise AttributeError).
Proof.
  intros (d0 & [= <-] & _ & _ & Hstr & (a & Ea & Ha) & (o & Eo & Ho) & Himg).
  assert (O : forall key, In key ESCAPED_KEYS -> optional_string d key).
  { intros key Hk. apply Hstr. cbn in *. tauto. }
  unfold render_plugin. cbn [py_get rbind].
  destruct (escaped_field_outcome d "Company" "Unnamed") as [[N R]|[NC (company & R)]];
    [apply O; cbn; tauto| |]; rewrite R; cbn [rbind].
  { right. split; [|reflexivity]. intros [F _]. apply (F "Company"); [cbn; tauto|exact N]. }
  destruct (escaped_field_outcome d "Name" "Unnamed") as [[N R']|[NN (name & R')]];
    [apply O; cbn; tauto| |]; rewrite R'; cbn [rbind].
  { right. split; [|reflexivity]. intros [F _]. apply (F "Name"); [cbn; tauto|exact N]. }
  cbn zeta.
  destruct (escaped_field_outcome d "Description" EmptyString)
    as [[N R2]|[ND (desc & R2)]]; [apply O; cbn; tauto| |]; rewrite R2; cbn [rbind].
  { right. split; [|reflexivity]. intros [F _].
    apply (F "Description"); [cbn; tauto|exact N]. }
  destruct (escaped_field_outcome d "SiteURL" EmptyString)
    as [[N R3]|[NS (site & R3)]]; [apply O; cbn; tauto| |]; rewrite R3; cbn [rbind].
  { right. split; [|reflexivity]. intros [F _]. apply (F "SiteURL"); [cbn; tauto|exact N]. }
  rewrite Ea, Eo.
  destruct (py_join_strings _ ", " a Ha) as (archs & ->).
  destruct (py_join_strings _ ", " o Ho) as (oses & ->). cbn [rbind].
  destruct (escaped_field_outcome d "SetupNotes" EmptyString)
    as [[N R4]|[NT (setup & R4)]]; [apply O; cbn; tauto| |]; rewrite R4; cbn [rbind].
  { right. split; [|reflexivity]. intros [F _].
    apply (F "SetupNotes"); [cbn; tauto|exact N]. }
  destruct (plugin_image_html_validated d name Himg) as [[(e & rest & Ei & Ed) R5]|[NI (img & R5)]];
    rewrite R5; cbn [rbind].
  { right. split; [|reflexivity]. intros [_ F]. exact (F e rest Ei Ed). }
  left. split; [|eauto]. split; [|exact NI].
  intros key Hk. cbn in Hk. decompose [or] Hk; subst; try contradiction; assumption.
Qed.

(** X6. On an object the validator accepts, rendering returns exactly when
    none of Name, Description, Company, SiteURL and SetupNotes is null and the
    first image has no null Description; otherwise it raises [AttributeError],
    and never any other exception. *)
Theorem render_plugin_on_validated_data (py_repr : json -> string) (i : nat) (d : dict) :
  validate_plugin_json (JDict d) = Ret [] ->
  (renderable d /\ exists r, render_plugin py_repr i (JDict d) = Ret r)
  \/ (~ renderable d /\ render_plugin py_repr i (JDict d) = Raise AttributeError).
Proof.
  intros V. apply render_plugin_validated. now apply validate_plugin_json_accepts.
Qed.

Lemma render_plugin_on_validated_data_sample :
  validate_plugin_json (JDict null_alt_fields) = Ret []
  /\ ((renderable null_alt_fields
       /\ exists r, render_plugin unused_repr 0 (JDict null_alt_fields) = Ret r)
      \/ (~ renderable null_alt_fields
          /\ render_plugin unused_repr 0 (JDict null_alt_fields) = Raise AttributeError)).
Proof.
  assert (V : validate_plugin_json (JDict null_alt_fields) = Ret []) by reflexivity.
  split; [exact V|].
  exact (render_plugin_on_validated_data unused_repr 0 null_alt_fields V).
Defined.

(** ** Runs that return 1 *)

Lemma file_events_no_fs_change (dir : path) (files : listing) :
  filter is_fs_change (flat_map (file_events dir) files) = [].
Proof.
  apply filter_flat_map_nil. intros [name f]. unfold file_events.
  cbn [fst snd filter is_fs_change].
  assert (M : forall errs,
             filter is_fs_change (map (fun x => Stderr (ValidationError x)) errs) = []).
  { induction errs as [|x errs IHe]; [reflexivity|exact IHe]. }
  destruct f as [| | |v]; try reflexivity.
  destruct v; try reflexivity;
    destruct (validate_plugin_json _) as [[|x errs]|x]; try reflexivity;
    cbn [filter is_fs_change]; apply (M (x :: errs)).
Qed.

(** X8. A run that returns 1 never reaches [build_html]: it creates no
    directory and writes no file, and it ends in one of three ways.  The input
    directory is missing: one message on stderr, no file opened.  The
    --output-file is absent: one message on stdout, no file opened.  No valid
    plugin file was found: every matching file was opened in path order, its
    diagnostics printed, and a last message on stderr says so. *)
Theorem run_returning_one_changes_nothing (py_repr : json -> string) (inv : invocation) :
  snd (main py_repr inv) = Ret 1 ->
  filter is_fs_change (fst (main py_repr inv)) = []
  /\ exists dir,
       arg_input_dir inv = Some dir
       /\ ((input_entries inv = None
            /\ fst (main py_repr inv) = [Stderr (NotADirectory (resolve inv dir))])
           \/ (exists entries,
                  input_entries inv = Some entries
                  /\ arg_output_file inv = None
                  /\ fst (main py_repr inv) = [Stdout OutputFileNotSpecified])
           \/ (exists entries out,
                  input_entries inv = Some entries
                  /\ arg_output_file inv = Some out
                  /\ valid_plugins (sorted (glob_json entries)) = []
                  /\ fst (main py_repr inv)
                     = flat_map (file_events (resolve inv dir)) (sorted (glob_json entries))
                       ++ [Stderr NoPluginsFound])).
Proof.
  intros M.
  destruct (arg_input_dir inv) as [dir|] eqn:E1;
    [|unfold main in M; rewrite E1 in M; discriminate].
  destruct (input_entries inv) as [entries|] eqn:E2.
  2:{ unfold main. rewrite E1, E2. cbn. split; [reflexivity|].
      exists dir. split; [reflexivity|]. left. auto. }
  destruct (arg_output_file inv) as [out|] eqn:E3.
  2:{ unfold main. rewrite E1, E2, E3. cbn. split; [reflexivity|].
      exists dir. split; [reflexivity|]. right. left. exists entries. auto. }
  rewrite (main_with_arguments py_repr inv dir out entries E1 E2 E3) in *.
  destruct (collect_plugins (resolve inv dir) entries) as [t [plugins|e]] eqn:C;
    [|discriminate].
  apply collect_plugins_returns in C as [-> ->].
  rewrite bind_pair, render_collected_cases in *. cbn [fst snd] in *.
  destruct (valid_plugins (sorted (glob_json entries))) as [|q ps] eqn:V.
  - cbn [fst]. split.
    + now rewrite filter_app, file_events_no_fs_change.
    + exists dir. split; [reflexivity|]. right. right. exists entries, out.
      rewrite V. auto.
  - destruct (render_rows py_repr (enumerate (q :: ps))); discriminate.
Qed.

Lemma run_returning_one_changes_nothing_sample :
  snd (main unused_repr invocation_without_output) = Ret 1
  /\ filter is_fs_change (fst (main unused_repr invocation_without_output)) = [].
Proof.
  assert (M : snd (main unused_repr invocation_without_output) = Ret 1) by reflexivity.
  split; [exact M|].
  exact (proj1 (run_returning_one_changes_nothing unused_repr invocation_without_output M)).
Defined.

(** ** collect_plugins: what it returns, what it opens *)

Lemma valid_plugins_length (files : listing) :
  (List.length (valid_plugins files) <= List.length files)%nat.
Proof.
  induction files as [|[n f] files IH]; cbn [valid_plugins List.length]; [lia|].
  destruct (valid_plugin f); cbn [List.length]; lia.
Qed.

Lemma glob_json_length (entries : listing) :
  (List.length (glob_json entries) <= List.length entries)%nat.
Proof.
  unfold glob_json. induction entries as [|x l IH]; cbn [filter List.length]; [lia|].
  destruct (matches_json (fst x)); cbn [List.length]; lia.
Qed.

(** X10. Whatever [collect_plugins] returns has passed validation: every
    plugin of the list is an object the validator accepts, so it has the seven
    required keys and is never null; and the list is no longer than the number
    of files the glob matches. *)
Theorem collect_plugins_returns_validated_data (dir : path) (entries : listing)
        (t : list event) (plugins : list json) :
  collect_plugins dir entries = (t, Ret plugins) ->
  Forall (fun p => validate_plugin_json p = Ret []
                   /\ exists d, p = JDict d
                                /\ forall key, In key REQUIRED_KEYS -> dict_has d key = true)
         plugins
  /\ (List.length plugins <= List.length (glob_json entries))%nat
  /\ (List.length plugins <= List.length entries)%nat.
Proof.
  intros C. apply collect_plugins_returns in C as [-> _]. split.
  - apply Forall_forall. intros p H. apply in_valid_plugins in H as (name & _ & V).
    split; [exact V|].
    apply validate_plugin_json_accepts in V as (d & -> & Hreq & _). eauto.
  - pose proof (valid_plugins_length (sorted (glob_json entries))) as L.
    rewrite (Permutation_length (sorted_is_permutation (glob_json entries))) in L.
    pose proof (glob_json_length entries). lia.
Qed.

Lemma collect_plugins_returns_validated_data_sample :
  collect_plugins "/work/plugins" sample_directory
  = (fst (collect_plugins "/work/plugins" sample_directory), Ret [sample_plugin])
  /\ (List.length [sample_plugin] <= List.length (glob_json sample_directory))%nat.
Proof.
  assert (C : collect_plugins "/work/plugins" sample_directory
              = (fst (collect_plugins "/work/plugins" sample_directory), Ret [sample_plugin]))
    by (vm_compute; reflexivity).
  split; [exact C|].
  exact (proj1 (proj2 (collect_plugins_returns_validated_data _ _ _ _ C))).
Defined.

Lemma opened_app (t1 t2 : list event) : opened (t1 ++ t2) = opened t1 ++ opened t2.
Proof. unfold opened. apply flat_map_app. Qed.

Lemma opened_file_events (dir : path) (files : listing) :
  opened (flat_map (file_events dir) files) = paths_of dir files.
Proof.
  induction files as [|[n f] files IH]; [reflexivity|].
  cbn [flat_map paths_of map]. rewrite opened_app. fold (paths_of dir files). rewrite IH.
  assert (M : forall errs, opened (map (fun x => Stderr (ValidationError x)) errs) = []).
  { induction errs as [|x errs IHe]; [reflexivity|exact IHe]. }
  unfold file_events. cbn [fst snd].
  destruct f as [| | |v]; try reflexivity.
  destruct v; try reflexivity;
    destruct (validate_plugin_json _) as [[|x errs]|x]; try reflexivity;
    unfold opened at 1; cbn [flat_map app]; fold (opened (map (fun x => Stderr (ValidationError x)) errs));
    now rewrite M.
Qed.

(** X11. [collect_plugins] opens files of the glob only, in ascending path
    order, each entry once: the paths it opens are an initial part of the
    sorted list of matching entries, and all of that list when it returns;
    the sorted list is a rearrangement of the glob's result. *)
Theorem collect_plugins_opens_in_path_order (dir : path) (entries : listing) :
  (exists rest,
      paths_of dir (sorted (glob_json entries))
      = opened (fst (collect_plugins dir entries)) ++ rest)
  /\ (forall plugins,
         snd (collect_plugins dir entries) = Ret plugins ->
         opened (fst (collect_plugins dir entries))
         = paths_of dir (sorted (glob_json entries)))
  /\ Sorted path_le (sorted (glob_json entries))
  /\ Permutation (sorted (glob_json entries)) (glob_json entries).
Proof.
  unfold collect_plugins.
  destruct (first_raising_file (sorted (glob_json entries)))
    as [F|(pre & n & g & post & e & E & F & R)].
  - rewrite (collect_loop_total dir _ [] F). cbn [fst snd].
    rewrite opened_file_events. split; [|split; [|split]].
    + exists []. now rewrite app_nil_r.
    + reflexivity.
    + apply sorted_is_sorted.
    + apply sorted_is_permutation.
  - split; [|split; [|split]].
    + rewrite E, (collect_loop_aborts dir pre post n g e [] F R). cbn [fst].
      rewrite opened_app, opened_file_events.
      exists (paths_of dir post). unfold paths_of. rewrite map_app. cbn [map opened flat_map fst app].
      now rewrite <- app_assoc.
    + intros plugins H. rewrite E, (collect_loop_aborts dir pre post n g e [] F R) in H.
      discriminate.
    + apply sorted_is_sorted.
    + apply sorted_is_permutation.
Qed.

(** X12. When every file the glob matches parses and validates, the run of
    [collect_plugins] is silent and complete: it prints nothing, only opens
    each matching file, and returns one plugin per matching file. *)
Theorem collect_plugins_is_silent_on_valid_files (dir : path) (entries : listing) :
  (forall name f,
      In (name, f) entries -> matches_json name = true ->
      exists v, f = Parsed v /\ validate_plugin_json v = Ret []) ->
  collect_plugins dir entries
  = (map OpenFile (paths_of dir (sorted (glob_json entries))),
     Ret (valid_plugins (sorted (glob_json entries))))
  /\ List.length (valid_plugins (sorted (glob_json entries)))
     = List.length (glob_json entries).
Proof.
  intros H.
  assert (G : forall files : listing,
             (forall name f, In (name, f) files ->
                             exists v, f = Parsed v /\ validate_plugin_json v = Ret []) ->
             Forall (fun entry => file_raises (snd entry) = None) files
             /\ flat_map (file_events dir) files = map OpenFile (paths_of dir files)
             /\ List.length (valid_plugins files) = List.length files).
  { induction files as [|[n f] files IH]; intros V.
    - repeat split. constructor.
    - destruct (V n f (or_introl eq_refl)) as (v & -> & Ev).
      destruct IH as (F & T & L); [intros; apply (V name f); now right|].
      split; [|split].
      + constructor; [|exact F]. cbn. now rewrite Ev.
      + cbn [flat_map paths_of map]. fold (paths_of dir files). rewrite T.
        unfold file_events. cbn [fst snd]. rewrite Ev. now destruct v.
      + cbn [valid_plugins valid_plugin]. rewrite Ev. cbn [List.length]. now rewrite L. }
  destruct (G (sorted (glob_json entries))) as (F & T & L).
  { intros name f Hin. apply in_sorted_glob in Hin as [Hin Hm]. eauto. }
  split.
  - unfold collect_plugins. now rewrite (collect_loop_total dir _ [] F), T.
  - rewrite L. apply Permutation_length, sorted_is_permutation.
Qed.

Lemma collect_plugins_is_silent_on_valid_files_sample :
  collect_plugins "plugins" valid_directory
  = ([OpenFile "plugins/alpha.json"; OpenFile "plugins/tracer.json"],
     Ret [plugin_with_true_version; sample_plugin]).
Proof.
  refine (proj1 (collect_plugins_is_silent_on_valid_files "plugins" valid_directory _)).
  intros name f [[= <- <-]|[[= <- <-]|[[= <- <-]|[]]]] M; try discriminate M; eauto.
Defined.

Lemma validate_reports_missing_keys_sample :
  validate_plugin_json (JDict incomplete_fields)
  = Ret [MissingKey "Company"; MissingKey "SiteURL"]
  /\ filter is_missing_key [MissingKey "Company"; MissingKey "SiteURL"]
     = map MissingKey (filter (fun key => negb (dict_has incomplete_fields key)) REQUIRED_KEYS).
Proof.
  assert (V : validate_plugin_json (JDict incomplete_fields)
              = Ret [MissingKey "Company"; MissingKey "SiteURL"]) by reflexivity.
  split; [exact V|].
  exact (proj1 (validate_reports_missing_keys incomplete_fields _ V)).
Defined.

Lemma escape_is_injective_sample :
  escape "a<b" = escape "a<b" /\ "a<b" = "a<b".
Proof.
  assert (E : escape "a<b" = escape "a<b") by reflexivity.
  split; [exact E|]. exact (escape_is_injective "a<b" "a<b" E).
Defined.

(** ** Anchors *)






(** ** The glob pattern *)

Lemma substring_all (s : string) : substring 0 (String.length s) s = s.
Proof. induction s as [|c s IH]; cbn; [reflexivity|now rewrite IH]. Qed.

Lemma substring_split (k : nat) (s : string) :
  (k <= String.length s)%nat ->
  (substring 0 k s ++ substring k (String.length s - k) s)%string = s.
Proof.
  revert s. induction k as [|k IH]; intros s L.
  - rewrite Nat.sub_0_r, substring_all. now destruct s.
  - destruct s as [|c s]; cbn [String.length] in L; [lia|].
    cbn [substring String.length Nat.sub append]. f_equal. apply IH. lia.
Qed.

Lemma substring_suffix (stem suffix : string) :
  substring (String.length stem) (String.length suffix) (stem ++ suffix) = suffix.
Proof.
  induction stem as [|c stem IH]; cbn [String.length append].
  - apply substring_all.
  - cbn [substring]. exact IH.
Qed.

(** X14. A name matches the glob pattern exactly when it ends in [.json]:
    it is some stem, possibly empty, followed by these five characters. *)
Theorem matches_json_iff_suffix (name : string) :
  matches_json name = true <-> exists stem, name = (stem ++ ".json")%string.
Proof.
  unfold matches_json. cbv zeta. split.
  - intros H. apply andb_prop in H as [L E].
    apply Nat.leb_le in L. apply String.eqb_eq in E.
    exists (substring 0 (String.length name - 5) name).
    rewrite <- E.
    pose proof (substring_split (String.length name - 5) name) as S.
    replace (String.length name - (String.length name - 5))%nat with 5%nat in S by lia.
    symmetry. apply S. lia.
  - intros (stem & ->). rewrite string_length_app. cbn [String.length].
    apply andb_true_intro. split; [apply Nat.leb_le; lia|].
    replace (String.length stem + 5 - 5)%nat with (String.length stem) by lia.
    apply String.eqb_eq. exact (substring_suffix stem ".json").
Qed.

(** ** The version line *)

(** X15. The version shown for a plugin that renders is [escape(str(v))] of
    its MinNsightSystemsVersion: the escaped string when it is a string,
    nothing when the key is absent, and the four letters None when it is null,
    which the validator permits. *)
Theorem min_version_of_rendered_plugin (py_repr : json -> string) (i : nat) (d : dict)
        (toc body : string) :
  render_plugin py_repr i (JDict d) = Ret (toc, body) ->
  exists name desc img_html archs oses setup_notes site_link company,
    body = body_row (anchor_of i) name desc img_html archs oses
                    (match dict_get d "MinNsightSystemsVersion" with
                     | None => EmptyString
                     | Some JNull => "None"
                     | Some (JStr s) => escape s
                     | Some v => escape (py_str py_repr v)
                     end)
                    setup_notes site_link company
    /\ toc = toc_row (anchor_of i) name.
Proof.
  intros R. unfold render_plugin in R.
  apply rbind_ret in R as (c & Hc & R). apply rbind_ret in R as (company & Hcompany & R).
  apply rbind_ret in R as (n & Hn & R). apply rbind_ret in R as (name & Hname & R).
  cbn zeta in R.
  apply rbind_ret in R as (de & Hd & R). apply rbind_ret in R as (desc & Hdesc & R).
  apply rbind_ret in R as (u & Hu & R). apply rbind_ret in R as (site & Hsite & R).
  apply rbind_ret in R as (a & Ha & R). apply rbind_ret in R as (archs & Harchs & R).
  apply rbind_ret in R as (o & Ho & R). apply rbind_ret in R as (oses & Hoses & R).
  apply rbind_ret in R as (m & Hm & R).
  apply rbind_ret in R as (s & Hs & R). apply rbind_ret in R as (setup & Hsetup & R).
  apply rbind_ret in R as (img & Himg & R). injection R as <- <-.
  cbn [py_get] in Hm. injection Hm as <-.
  exists name, desc, img, archs, oses, setup.
  eexists. exists company. split; [|reflexivity].
  unfold anchor_of.
  destruct (dict_get d "MinNsightSystemsVersion") as [[]|]; reflexivity.
Qed.

Lemma min_version_of_rendered_plugin_sample :
  validate_plugin_json (JDict null_version_fields) = Ret []
  /\ exists toc body name desc img_html archs oses setup_notes site_link company,
       render_plugin unused_repr 0 (JDict null_version_fields) = Ret (toc, body)
       /\ body = body_row (anchor_of 0) name desc img_html archs oses "None"
                          setup_notes site_link company.
Proof.
  split; [reflexivity|].
  destruct (render_plugin unused_repr 0 (JDict null_version_fields)) as [[toc body]|e] eqn:R;
    [|vm_compute in R; discriminate R].
  destruct (min_version_of_rendered_plugin unused_repr 0 null_version_fields toc body R)
    as (name & desc & img & archs & oses & setup & site & company & B & _).
  exists toc, body, name, desc, img, archs, oses, setup, site, company.
  split; [reflexivity|exact B].
Defined.

(** ** Rejected files *)

Lemma filter_permutation (q : string * file -> bool) (l l' : listing) :
  Permutation l l' -> Permutation (filter q l) (filter q l').
Proof.
  induction 1 as [|x l l' P IH|x y l|l l' l'' P1 IH1 P2 IH2]; cbn [filter].
  - constructor.
  - destruct (q x); [now constructor|assumption].
  - destruct (q x), (q y); try reflexivity. apply perm_swap.
  - now transitivity (filter q l').
Qed.

Lemma filter_names_nodup (q : string * file -> bool) (l : listing) :
  NoDup (map fst l) -> NoDup (map fst (filter q l)).
Proof.
  induction l as [|x l IH]; cbn [filter map]; intros ND; [constructor|].
  inversion ND as [|? ? Hin ND']; subst.
  destruct (q x); [|now apply IH].
  cbn [map]. constructor; [|now apply IH].
  intros H. apply Hin. apply in_map_iff in H as (e & E & He).
  apply filter_In in He as [He _]. apply in_map_iff. eauto.
Qed.

Lemma path_le_transitive : Relations_1.Transitive path_le.
Proof. intros x y z. unfold path_le. apply string_leb_trans. Qed.

Lemma strongly_sorted_filter (q : string * file -> bool) (l : listing) :
  StronglySorted path_le l -> StronglySorted path_le (filter q l).
Proof.
  induction 1 as [|x l S IH F]; cbn [filter]; [constructor|].
  destruct (q x); [|exact IH]. constructor; [exact IH|].
  rewrite Forall_forall in *. intros y Hy. apply F. now apply filter_In in Hy.
Qed.

Lemma sorted_of_strongly_sorted (l : listing) : StronglySorted path_le l -> sorted l = l.
Proof.
  induction 1 as [|x l S IH F]; [reflexivity|].
  cbn [sorted fold_right]. fold (sorted l). rewrite IH.
  destruct l as [|y l]; [reflexivity|]. cbn [insert_entry].
  inversion F as [|? ? Hxy _]; subst. unfold path_le in Hxy. now rewrite Hxy.
Qed.

(** Sorting and filtering commute on entries of distinct names. *)
Lemma sorted_filter (q : string * file -> bool) (l : listing) :
  NoDup (map fst l) -> sorted (filter q l) = filter q (sorted l).
Proof.
  intros ND.
  rewrite (sorted_permutation (filter q l) (filter q (sorted l))).
  - apply sorted_of_strongly_sorted, strongly_sorted_filter.
    apply Sorted_StronglySorted; [exact path_le_transitive|apply sorted_is_sorted].
  - apply filter_permutation. symmetry. apply sorted_is_permutation.
  - now apply filter_names_nodup.
Qed.

Lemma glob_json_filter (q : string * file -> bool) (l : listing) :
  glob_json (filter q l) = filter q (glob_json l).
Proof.
  unfold glob_json. induction l as [|x l IH]; cbn [filter]; [reflexivity|].
  destruct (q x) eqn:Q, (matches_json (fst x)) eqn:M; cbn [filter]; rewrite ?Q, ?M, IH;
    reflexivity.
Qed.

Lemma valid_plugins_without_rejected (files : listing) :
  valid_plugins (filter (fun entry => is_valid_file (snd entry)) files) = valid_plugins files.
Proof.
  induction files as [|[n f] files IH]; [reflexivity|].
  cbn [filter snd]. unfold is_valid_file at 1.
  destruct (valid_plugin f) as [v|] eqn:V; cbn [valid_plugins]; rewrite V, ?IH; reflexivity.
Qed.

Lemma no_raise_sorted_glob (entries : listing) :
  Forall (fun entry => file_raises (snd entry) = None) (glob_json entries) ->
  Forall (fun entry => file_raises (snd entry) = None) (sorted (glob_json entries)).
Proof.
  rewrite !Forall_forall. intros H x Hx. apply H.
  now apply (Permutation_in _ (sorted_is_permutation _)).
Qed.

Lemma valid_file_no_raise (f : file) : is_valid_file f = true -> file_raises f = None.
Proof.
  unfold is_valid_file, valid_plugin. destruct f as [| | |v]; try discriminate.
  cbn [file_raises]. now destruct (validate_plugin_json v) as [[|]|].
Qed.

(** X16. On a directory none of whose matching files makes the loop raise
    (each is unreadable, is not JSON, or parses to data on which the validator
    returns), [collect_plugins] logs and skips: it returns the plugins of the
    valid files; every matching file that fails to parse or to validate
    contributes no plugin and is named in a message on stderr, and each of its
    validation errors is printed. *)
Theorem collect_plugins_logs_and_skips (dir : path) (entries : listing) :
  Forall (fun entry => file_raises (snd entry) = None) (glob_json entries) ->
  exists t,
    collect_plugins dir entries = (t, Ret (valid_plugins (sorted (glob_json entries))))
    /\ forall name f,
         In (name, f) entries -> matches_json name = true -> rejected f ->
         valid_plugin f = None
         /\ (In (Stderr (FailedToLoad (joinpath dir name))) t
             \/ In (Stderr (InvalidFormat (joinpath dir name))) t)
         /\ forall v errs err,
              f = Parsed v -> v <> JNull -> validate_plugin_json v = Ret errs ->
              In err errs -> In (Stderr (ValidationError err)) t.
Proof.
  intros F0. pose proof (no_raise_sorted_glob entries F0) as F.
  exists (flat_map (file_events dir) (sorted (glob_json entries))). split.
  { unfold collect_plugins. now rewrite (collect_loop_total dir _ [] F). }
  intros name f Hin Hm Rj.
  assert (Hs : In (name, f) (sorted (glob_json entries))) by now apply in_sorted_glob.
  assert (Sub : forall ev, In ev (file_events dir (name, f)) ->
                           In ev (flat_map (file_events dir) (sorted (glob_json entries)))).
  { intros ev Hev. apply in_flat_map. eauto. }
  rewrite Forall_forall in F. specialize (F _ Hs). cbn [snd] in F.
  unfold valid_plugin.
  destruct f as [| | |v]; cbn [file_raises rejected] in *.
  - split; [reflexivity|]. split; [|discriminate].
    left. apply Sub. cbn. tauto.
  - discriminate.
  - split; [reflexivity|]. split; [|discriminate].
    left. apply Sub. cbn. tauto.
  - destruct (validate_plugin_json v) as [[|e errs]|e] eqn:Ev; try discriminate;
      [contradiction|].
    split; [reflexivity|]. split.
    + destruct v; try (right; apply Sub; unfold file_events; cbn [fst snd]; rewrite Ev;
                       right; left; reflexivity).
      left. apply Sub. cbn. tauto.
    + intros v' errs' err [= <-] NN V Herr. rewrite Ev in V. injection V as <-.
      apply Sub.
      unfold file_events. cbn [fst snd]. rewrite Ev.
      destruct v; try contradiction; right; right;
        apply (in_map (fun x => Stderr (ValidationError x))); exact Herr.
Qed.

Lemma collect_plugins_logs_and_skips_sample :
  Forall (fun entry => file_raises (snd entry) = None) (glob_json sample_directory)
  /\ exists t,
       collect_plugins "plugins" sample_directory
       = (t, Ret (valid_plugins (sorted (glob_json sample_directory))))
       /\ valid_plugin NotJSON = None.
Proof.
  assert (F : Forall (fun entry => file_raises (snd entry) = None) (glob_json sample_directory)).
  { repeat constructor. }
  split; [exact F|].
  destruct (collect_plugins_logs_and_skips "plugins" sample_directory F) as (t & C & H).
  exists t. split; [exact C|].
  refine (proj1 (H "broken.json" NotJSON _ eq_refl I)).
  right. left. reflexivity.
Defined.

(** X17. On a directory of distinct names none of whose matching files
    makes the loop raise (each is unreadable, is not JSON, or parses to data on
    which the validator returns), the plugins [collect_plugins] returns are
    those it returns on the same directory with the rejected files removed. *)
Theorem rejected_files_do_not_change_the_result (dir : path) (entries : listing) :
  NoDup (map fst entries) ->
  Forall (fun entry => file_raises (snd entry) = None) (glob_json entries) ->
  snd (collect_plugins dir entries) = snd (collect_plugins dir (without_rejected entries))
  /\ snd (collect_plugins dir entries) = Ret (valid_plugins (sorted (glob_json entries))).
Proof.
  intros ND F0. pose proof (no_raise_sorted_glob entries F0) as F.
  unfold collect_plugins at 1 3. rewrite (collect_loop_total dir _ [] F). cbn [snd app].
  split; [|reflexivity].
  unfold collect_plugins, without_rejected.
  rewrite glob_json_filter, sorted_filter by now apply glob_json_nodup.
  rewrite collect_loop_total.
  - cbn [snd app]. now rewrite valid_plugins_without_rejected.
  - apply Forall_forall. intros [n f] H. apply filter_In in H as [_ V].
    cbn [snd] in *. now apply valid_file_no_raise.
Qed.

Lemma rejected_files_do_not_change_the_result_sample :
  NoDup (map fst sample_directory)
  /\ Forall (fun entry => file_raises (snd entry) = None) (glob_json sample_directory)
  /\ snd (collect_plugins "plugins" sample_directory)
     = snd (collect_plugins "plugins" (without_rejected sample_directory)).
Proof.
  assert (N : NoDup (map fst sample_directory)).
  { repeat constructor; simpl; intuition discriminate. }
  assert (F : Forall (fun entry => file_raises (snd entry) = None) (glob_json sample_directory)).
  { repeat constructor. }
  split; [exact N|]. split; [exact F|].
  exact (proj1 (rejected_files_do_not_change_the_result "plugins" sample_directory N F)).
Defined.

(** ** A successful run, end to end *)

(** X18. A run that returns 0 does its work in this order: it opens every
    matching file in path order, printing the diagnostics of the rejected ones;
    only then it creates the parent directory and writes the page, once; last
    it reports on stdout the output path and the number of plugins, which is
    the number of valid descriptor files. *)
Theorem successful_run_trace (py_repr : json -> string) (inv : invocation)
        (t : list event) :
  main py_repr inv = (t, Ret 0) ->
  exists dir entries out html,
    arg_input_dir inv = Some dir
    /\ input_entries inv = Some entries
    /\ arg_output_file inv = Some out
    /\ t = flat_map (file_events (resolve inv dir)) (sorted (glob_json entries))
           ++ [MkdirParents (resolve inv out);
               WriteText (resolve inv out) html;
               Stdout (Wrote (resolve inv out)
                             (List.length (valid_plugins (sorted (glob_json entries)))))]
    /\ valid_plugins (sorted (glob_json entries)) <> [].
Proof.
  intros M.
  destruct (arg_input_dir inv) as [dir|] eqn:E1; [|unfold main in M; now rewrite E1 in M].
  destruct (input_entries inv) as [entries|] eqn:E2;
    [|unfold main in M; rewrite E1, E2 in M; discriminate].
  destruct (arg_output_file inv) as [out|] eqn:E3;
    [|unfold main in M; rewrite E1, E2, E3 in M; discriminate].
  rewrite (main_with_arguments py_repr inv dir out entries E1 E2 E3) in M.
  apply bind_ret_inv in M as (t1 & plugins & t2 & C & R & ->).
  apply collect_plugins_returns in C as [-> ->].
  rewrite render_collected_cases in R.
  destruct (valid_plugins (sorted (glob_json entries))) as [|q ps] eqn:V; [discriminate|].
  destruct (render_rows py_repr _) as [rows|e]; [|discriminate].
  injection R as <-.
  exists dir, entries, out, (page (String.concat nl (fst rows)) (String.concat nl (snd rows))).
  rewrite V.
  split; [reflexivity|]. split; [reflexivity|]. split; [reflexivity|].
  split; [reflexivity|]. discriminate.
Qed.

Lemma successful_run_trace_sample :
  main unused_repr sample_invocation = (fst (main unused_repr sample_invocation), Ret 0)
  /\ exists dir entries out html,
       arg_input_dir sample_invocation = Some dir
       /\ input_entries sample_invocation = Some entries
       /\ arg_output_file sample_invocation = Some out
       /\ fst (main unused_repr sample_invocation)
          = flat_map (file_events (resolve sample_invocation dir)) (sorted (glob_json entries))
            ++ [MkdirParents (resolve sample_invocation out);
                WriteText (resolve sample_invocation out) html;
                Stdout (Wrote (resolve sample_invocation out)
                              (List.length (valid_plugins (sorted (glob_json entries)))))].
Proof.
  assert (M : main unused_repr sample_invocation
              = (fst (main unused_repr sample_invocation), Ret 0))
    by (vm_compute; reflexivity).
  split; [exact M|].
  destruct (successful_run_trace unused_repr sample_invocation _ M)
    as (dir & entries & out & html & H1 & H2 & H3 & H4 & _).
  exists dir, entries, out, html. auto.
Defined.

(** ** Every value placed in the page is entity-encoded *)

Lemma escape_value_encoded (v : json) (s : string) : escape_value v = Ret s -> encoded s.
Proof. destruct v; try discriminate. intros [= <-]. apply encoded_escape. Qed.

Lemma plugin_image_html_encoded (p : json) (name img_html : string) :
  plugin_image_html p name = Ret img_html ->
  img_html = EmptyString
  \/ exists path_esc alt,
       encoded path_esc /\ encoded alt
       /\ img_html = fstring [
            "<a href="; dq; path_esc; dq; "><img src="; dq; path_esc; dq; " alt="; dq; alt; dq;
            " class="; dq; "plugin-img"; dq; " /></a>" ].
Proof.
  unfold plugin_image_html. intros R.
  apply rbind_ret in R as (im & _ & R). cbv zeta in R.
  destruct (truthy (py_or im (JList []))); [|left; now injection R].
  apply rbind_ret in R as (first & _ & R). apply rbind_ret in R as (path & _ & R).
  apply rbind_ret in R as (description & _ & R). apply rbind_ret in R as (alt & Halt & R).
  destruct (truthy path); [|left; now injection R].
  apply rbind_ret in R as (path_esc & Hpath & R). injection R as <-.
  right. exists path_esc, alt. eauto using escape_value_encoded.
Qed.

(** X19. Whatever the plugin, validated or not, every value that rendering
    places in the page has gone through [escape]: the name, description,
    version, setup notes and company of the rows are entity-encoded, the
    architectures and operating systems are escaped by the row itself, the
    site link is empty or built from the encoded URL, and the image is empty
    or built from the encoded path and alternative text. *)
Theorem rendered_values_are_encoded (py_repr : json -> string) (i : nat) (p : json)
        (toc body : string) :
  render_plugin py_repr i p = Ret (toc, body) ->
  exists name desc img_html archs oses min_ver setup_notes site_link company,
    toc = toc_row (anchor_of i) name
    /\ body = body_row (anchor_of i) name desc img_html archs oses min_ver setup_notes
                       site_link company
    /\ encoded name /\ encoded desc /\ encoded min_ver /\ encoded setup_notes
    /\ encoded company
    /\ (site_link = EmptyString
        \/ exists site_esc,
             encoded site_esc
             /\ site_link = fstring [
                  "<a href="; dq; site_esc; dq; " rel="; dq; "noopener noreferrer"; dq; ">";
                  site_esc; "</a>" ])
    /\ (img_html = EmptyString
        \/ exists path_esc alt,
             encoded path_esc /\ encoded alt
             /\ img_html = fstring [
                  "<a href="; dq; path_esc; dq; "><img src="; dq; path_esc; dq; " alt="; dq;
                  alt; dq; " class="; dq; "plugin-img"; dq; " /></a>" ]).
Proof.
  intros R. unfold render_plugin in R.
  apply rbind_ret in R as (c & Hc & R). apply rbind_ret in R as (company & Hcompany & R).
  apply rbind_ret in R as (n & Hn & R). apply rbind_ret in R as (name & Hname & R).
  cbn zeta in R.
  apply rbind_ret in R as (de & Hd & R). apply rbind_ret in R as (desc & Hdesc & R).
  apply rbind_ret in R as (u & Hu & R). apply rbind_ret in R as (site & Hsite & R).
  apply rbind_ret in R as (a & Ha & R). apply rbind_ret in R as (archs & Harchs & R).
  apply rbind_ret in R as (o & Ho & R). apply rbind_ret in R as (oses & Hoses & R).
  apply rbind_ret in R as (m & Hm & R).
  apply rbind_ret in R as (s & Hs & R). apply rbind_ret in R as (setup & Hsetup & R).
  apply rbind_ret in R as (img & Himg & R). injection R as <- <-.
  exists name, desc, img, archs, oses, (escape (py_str py_repr m)), setup.
  eexists. exists company.
  split; [reflexivity|]. split; [reflexivity|].
  split; [exact (escape_value_encoded _ _ Hname)|].
  split; [exact (escape_value_encoded _ _ Hdesc)|].
  split; [apply encoded_escape|].
  split; [exact (escape_value_encoded _ _ Hsetup)|].
  split; [exact (escape_value_encoded _ _ Hcompany)|].
  split.
  - destruct (truthy u); [right|left; reflexivity].
    exists site. split; [exact (escape_value_encoded _ _ Hsite)|reflexivity].
  - exact (plugin_image_html_encoded _ _ _ Himg).
Qed.

Lemma rendered_values_are_encoded_sample :
  exists toc body name desc img_html archs oses min_ver setup_notes site_link company,
    render_plugin unused_repr 0 sample_plugin = Ret (toc, body)
    /\ body = body_row (anchor_of 0) name desc img_html archs oses min_ver setup_notes
                       site_link company
    /\ encoded desc.
Proof.
  destruct (render_plugin unused_repr 0 sample_plugin) as [[toc body]|e] eqn:R;
    [|vm_compute in R; discriminate R].
  destruct (rendered_values_are_encoded unused_repr 0 sample_plugin toc body R)
    as (name & desc & img & archs & oses & mv & setup & site & company & _ & B & _ & D & _).
  exists toc, body, name, desc, img, archs, oses, mv, setup, site, company.
  split; [reflexivity|]. split; [exact B|exact D].
Defined.

(** ** The page that is written *)

Lemma contains_refl (x : string) : contains x x.
Proof. exists EmptyString, EmptyString. cbn. now rewrite string_app_nil_r. Qed.

Lemma contains_app_l (x a b : string) : contains x b -> contains x (a ++ b).
Proof.
  intros (pre & post & ->). exists (a ++ pre)%string, post.
  apply string_app_assoc.
Qed.

Lemma contains_app_r (x a b : string) : contains x a -> contains x (a ++ b).
Proof.
  intros (pre & post & ->). exists pre, (post ++ b)%string.
  now rewrite <- !string_app_assoc.
Qed.

Lemma contains_trans (a b c : string) : contains a b -> contains b c -> contains a c.
Proof.
  intros H (pre & post & ->). apply contains_app_l, contains_app_r. exact H.
Qed.

Lemma contains_concat (sep : string) (l : list string) (x : string) :
  In x l -> contains x (String.concat sep l).
Proof.
  induction l as [|a l IH]; [contradiction|].
  destruct l as [|b l].
  - intros [->|[]]. apply contains_refl.
  - intros [->|H].
    + change (String.concat sep (x :: b :: l))
        with (x ++ sep ++ String.concat sep (b :: l))%string.
      apply contains_app_r, contains_refl.
    + change (String.concat sep (a :: b :: l))
        with (a ++ sep ++ String.concat sep (b :: l))%string.
      apply contains_app_l, contains_app_l, IH, H.
Qed.

(** The page holds its table of contents and its body. *)
Lemma page_contains (toc body : string) :
  contains toc (page toc body) /\ contains body (page toc body).
Proof.
  unfold page, fstring. split; apply contains_concat; cbn [In];
    repeat first [left; reflexivity | right].
Qed.

(** The rows of the plugin at position [i] are among the rows of the loop. *)
Lemma render_rows_nth (py_repr : json -> string) (l : list json) (j i : nat)
      (tocs bodies : list string) (p : json) :
  render_rows py_repr (enumerate_from j l) = Ret (tocs, bodies) ->
  nth_error l i = Some p ->
  exists toc body,
    render_plugin py_repr (j + i) p = Ret (toc, body) /\ In toc tocs /\ In body bodies.
Proof.
  revert j i tocs bodies. induction l as [|x l IH]; intros j i tocs bodies R N.
  - destruct i; discriminate.
  - cbn [enumerate_from render_rows] in R.
    apply rbind_ret in R as ([toc body] & Er & R).
    apply rbind_ret in R as ([ts bs] & Ers & [= <- <-]).
    destruct i as [|i]; cbn [nth_error] in N.
    + injection N as <-. rewrite Nat.add_0_r. exists toc, body. cbn. auto.
    + destruct (IH (S j) i ts bs Ers N) as (toc' & body' & E & Ht & Hb).
      exists toc', body'. rewrite Nat.add_succ_r. cbn. auto.
Qed.

(** The rows of a plugin that renders and has a Name carry the escaped Name
    under the anchor of the plugin's index. *)
Lemma render_plugin_named (py_repr : json -> string) (i : nat) (d : dict) (v : json)
      (toc body : string) :
  render_plugin py_repr i (JDict d) = Ret (toc, body) ->
  dict_get d "Name" = Some v ->
  exists name,
    v = JStr name
    /\ toc = toc_row (anchor_of i) (escape name)
    /\ exists desc img_html archs oses min_ver setup_notes site_link company,
         body = body_row (anchor_of i) (escape name) desc img_html archs oses min_ver
                         setup_notes site_link company.
Proof.
  intros R G. unfold render_plugin in R.
  apply rbind_ret in R as (c & Hc & R). apply rbind_ret in R as (company & Hcompany & R).
  apply rbind_ret in R as (n & Hn & R). apply rbind_ret in R as (name & Hname & R).
  cbn zeta in R.
  apply rbind_ret in R as (de & Hd & R). apply rbind_ret in R as (desc & Hdesc & R).
  apply rbind_ret in R as (u & Hu & R). apply rbind_ret in R as (site & Hsite & R).
  apply rbind_ret in R as (a & Ha & R). apply rbind_ret in R as (archs & Harchs & R).
  apply rbind_ret in R as (o & Ho & R). apply rbind_ret in R as (oses & Hoses & R).
  apply rbind_ret in R as (m & Hm & R).
  apply rbind_ret in R as (s & Hs & R). apply rbind_ret in R as (setup & Hsetup & R).
  apply rbind_ret in R as (img & Himg & R). injection R as <- <-.
  cbn [py_get] in Hn. rewrite G in Hn. injection Hn as <-.
  destruct v; try discriminate. cbn [escape_value] in Hname. injection Hname as <-.
  exists s0. split; [reflexivity|]. split; [reflexivity|].
  exists desc, img, archs, oses, (escape (py_str py_repr m)), setup.
  eexists. exists company. reflexivity.
Qed.

(** X20. When [collect_plugins] returns and [build_html] writes the page,
    the page lists exactly the valid entries.  The plugins rendered are the
    data of the matching files that parse and validate with no error, in path
    order.  The page is built from one table-of-contents row and one body row
    per such plugin, and for the plugin at position [i] the text written holds
    the table-of-contents row that links to the anchor of [i] under the
    escaped Name of the plugin, and a body row under the same anchor and
    Name. *)
Theorem written_page_lists_the_valid_entries (py_repr : json -> string) (dir out : path)
        (entries : listing) (t1 t2 : list event) (plugins : list json) :
  collect_plugins dir entries = (t1, Ret plugins) ->
  build_html py_repr plugins out = (t2, Ret tt) ->
  plugins = valid_plugins (sorted (glob_json entries))
  /\ (forall p, In p plugins <->
                exists name, In (name, Parsed p) entries
                             /\ matches_json name = true
                             /\ validate_plugin_json p = Ret [])
  /\ exists html tocs bodies,
       t2 = [MkdirParents out; WriteText out html]
       /\ html = page (String.concat nl tocs) (String.concat nl bodies)
       /\ List.length tocs = List.length plugins
       /\ List.length bodies = List.length plugins
       /\ forall i p,
            nth_error plugins i = Some p ->
            exists d name,
              p = JDict d
              /\ dict_get d "Name" = Some (JStr name)
              /\ contains (toc_row (anchor_of i) (escape name)) html
              /\ exists desc img_html archs oses min_ver setup_notes site_link company,
                   contains (body_row (anchor_of i) (escape name) desc img_html archs oses
                                      min_ver setup_notes site_link company) html.
Proof.
  intros C B. apply collect_plugins_returns in C as [Ep _].
  split; [exact Ep|]. split.
  { intros p. rewrite Ep, in_valid_plugins. split.
    - intros (name & Hin & Hv). apply in_sorted_glob in Hin as [Hin Hm]. eauto.
    - intros (name & Hin & Hm & Hv). exists name. split; [|assumption].
      now apply in_sorted_glob. }
  rewrite build_html_cases in B.
  destruct (render_rows py_repr (enumerate plugins)) as [[tocs bodies]|e] eqn:R;
    [|discriminate].
  injection B as <-. cbn [fst snd].
  exists (page (String.concat nl tocs) (String.concat nl bodies)), tocs, bodies.
  split; [reflexivity|]. split; [reflexivity|].
  assert (L : List.length tocs = List.length plugins
              /\ List.length bodies = List.length plugins).
  { pose proof R as R'. apply render_rows_ret in R' as (rows & F & -> & ->).
    apply Forall2_length in F. rewrite !length_map, <- F.
    assert (Le : forall (l : list json) k, List.length (enumerate_from k l) = List.length l).
    { induction l as [|x l IH]; intros k; cbn; [reflexivity|now rewrite IH]. }
    unfold enumerate. now rewrite Le. }
  split; [apply L|]. split; [apply L|].
  intros i p N.
  assert (V : validate_plugin_json p = Ret []).
  { apply nth_error_In in N. rewrite Ep in N.
    now apply in_valid_plugins in N as (name & _ & V). }
  apply validate_plugin_json_accepts in V as (d & -> & Hreq & _).
  destruct (required_has d "Name") as (v & G); [apply Hreq; cbn; tauto|].
  destruct (render_rows_nth py_repr plugins 0 i tocs bodies (JDict d) R N)
    as (toc & body & E & Ht & Hb).
  cbn [Nat.add] in E.
  destruct (render_plugin_named py_repr i d v toc body E G)
    as (name & -> & -> & desc & img & archs & oses & mv & setup & site & company & ->).
  exists d, name. split; [reflexivity|]. split; [exact G|].
  destruct (page_contains (String.concat nl tocs) (String.concat nl bodies)) as [Pt Pb].
  split.
  - eapply contains_trans; [apply contains_concat, Ht|exact Pt].
  - exists desc, img, archs, oses, mv, setup, site, company.
    eapply contains_trans; [apply contains_concat, Hb|exact Pb].
Qed.

Lemma written_page_lists_the_valid_entries_sample :
  collect_plugins "/work/plugins" sample_directory
  = (fst (collect_plugins "/work/plugins" sample_directory), Ret [sample_plugin])
  /\ build_html unused_repr [sample_plugin] "/work/site/index.html"
     = (fst (build_html unused_repr [sample_plugin] "/work/site/index.html"), Ret tt)
  /\ [sample_plugin] = valid_plugins (sorted (glob_json sample_directory)).
Proof.
  assert (C : collect_plugins "/work/plugins" sample_directory
              = (fst (collect_plugins "/work/plugins" sample_directory), Ret [sample_plugin]))
    by (vm_compute; reflexivity).
  assert (B : build_html unused_repr [sample_plugin] "/work/site/index.html"
              = (fst (build_html unused_repr [sample_plugin] "/work/site/index.html"), Ret tt))
    by (vm_compute; reflexivity).
  split; [exact C|]. split; [exact B|].
  exact (proj1 (written_page_lists_the_valid_entries unused_repr _ _ _ _ _ _ C B)).
Defined.
